(** * EquityAnalysisFilter: a shallow embedding of the screening pipeline

    The development follows the Python sources
      - [src/filters.py]             (Bulk Screener, [get_initial_survivors]),
      - [src/setup.py]               ([calculate_altman_z_yfinance],
                                      [apply_trend_alignment], cache I/O),
      - [src/financial_analysis.py]  (Deep Analyzer, [get_advanced_metrics]).

    Numbers.  Python and numpy floats are modelled by the type [num]:
    an exact rational, one of the two infinities, or NaN.  Arithmetic on
    finite values is exact (binary64 rounding, overflow and the sign of
    zero are not modelled); the special values follow IEEE 754 as numpy
    applies it to float64 scalars and Series (a division by zero gives an
    infinity or NaN, a comparison with NaN is false). *)

From Stdlib Require Import QArith Qround Qabs ZArith Lia Lqa List Bool.
From Stdlib Require Import Sorted Ascii.
From stdpp Require Import gmap strings list fin_maps.

Open Scope Q_scope.

(* ===================================================================== *)
(** * Numbers *)
(* ===================================================================== *)

Module Num.

Inductive num : Type :=
| Fin (q : Q)
| PInf
| NInf
| NaN.

(** Sign of a value that is not NaN: [Gt] positive, [Lt] negative,
    [Eq] zero. *)
Definition sign (a : num) : comparison :=
  match a with
  | Fin q => Qcompare q 0
  | PInf => Gt
  | NInf => Lt
  | NaN => Eq
  end.

Definition sign_mul (s t : comparison) : comparison :=
  match s, t with
  | Eq, _ | _, Eq => Eq
  | Gt, Gt | Lt, Lt => Gt
  | _, _ => Lt
  end.

(** The infinity of a given sign; a zero sign stands for an invalid
    operation (0 * inf, 0 / 0). *)
Definition inf_of (s : comparison) : num :=
  match s with
  | Gt => PInf
  | Lt => NInf
  | Eq => NaN
  end.

Definition neg (a : num) : num :=
  match a with
  | Fin q => Fin (- q)
  | PInf => NInf
  | NInf => PInf
  | NaN => NaN
  end.

Definition add (a b : num) : num :=
  match a, b with
  | NaN, _ | _, NaN => NaN
  | Fin x, Fin y => Fin (x + y)
  | PInf, NInf | NInf, PInf => NaN
  | PInf, _ | _, PInf => PInf
  | NInf, _ | _, NInf => NInf
  end.

Definition sub (a b : num) : num := add a (neg b).

Definition mul (a b : num) : num :=
  match a, b with
  | NaN, _ | _, NaN => NaN
  | Fin x, Fin y => Fin (x * y)
  | _, _ => inf_of (sign_mul (sign a) (sign b))
  end.

(** numpy float64 division: no exception on a zero divisor. *)
Definition div (a b : num) : num :=
  match a, b with
  | NaN, _ | _, NaN => NaN
  | Fin x, Fin y => if Qeq_bool y 0 then inf_of (sign a) else Fin (x / y)
  | Fin _, _ => Fin 0
  | _, Fin y => inf_of (sign_mul (sign a) (if Qeq_bool y 0 then Gt else sign b))
  | _, _ => NaN
  end.

Definition abs (a : num) : num :=
  match a with
  | Fin q => Fin (Qabs q)
  | PInf | NInf => PInf
  | NaN => NaN
  end.

(** Three-way comparison; [None] when an operand is NaN. *)
Definition cmp (a b : num) : option comparison :=
  match a, b with
  | NaN, _ | _, NaN => None
  | Fin x, Fin y => Some (Qcompare x y)
  | PInf, PInf | NInf, NInf => Some Eq
  | NInf, _ | _, PInf => Some Lt
  | _, _ => Some Gt
  end.

Definition ltb (a b : num) : bool :=
  match cmp a b with Some Lt => true | _ => false end.
Definition leb (a b : num) : bool :=
  match cmp a b with Some Lt | Some Eq => true | _ => false end.
Definition gtb (a b : num) : bool := ltb b a.
Definition geb (a b : num) : bool := leb b a.
Definition eqb (a b : num) : bool :=
  match cmp a b with Some Eq => true | _ => false end.

(** Round to the nearest integer, ties to the even one. *)
Definition rint (q : Q) : Z :=
  let f := Qfloor q in
  match Qcompare (q - inject_Z f) (1 # 2) with
  | Lt => f
  | Gt => (f + 1)%Z
  | Eq => if Z.even f then f else (f + 1)%Z
  end.

(** [round(x, 2)]. *)
Definition round2 (a : num) : num :=
  match a with
  | Fin q => Fin (inject_Z (rint (q * 100)) / 100)
  | _ => a
  end.

Definition is_nan (a : num) : bool :=
  match a with NaN => true | _ => false end.

Definition is_fin (a : num) : bool :=
  match a with Fin _ => true | _ => false end.

Definition sum (l : list num) : num := fold_left add l (Fin 0).

(** [Series.mean()] of a Series without missing values. *)
Definition mean (l : list num) : num :=
  div (sum l) (Fin (inject_Z (Z.of_nat (length l)))).

(** Equality of values up to the representation of a rational. *)
Definition equiv (a b : num) : Prop :=
  match a, b with
  | Fin x, Fin y => x == y
  | PInf, PInf | NInf, NInf | NaN, NaN => True
  | _, _ => False
  end.

End Num.

Import Num.

Declare Scope num_scope.
Delimit Scope num_scope with num.
Bind Scope num_scope with num.
Infix "+" := add : num_scope.
Infix "-" := sub : num_scope.
Infix "*" := mul : num_scope.
Infix "/" := div : num_scope.
Infix "<?" := ltb : num_scope.
Infix "<=?" := leb : num_scope.
Infix ">?" := gtb : num_scope.
Infix ">=?" := geb : num_scope.
Infix "=?" := eqb : num_scope.
Infix "=~" := equiv (at level 70, no associativity) : num_scope.

(** A Python number literal. *)
Coercion Fin : Q >-> num.

(* ===================================================================== *)
(** * Python values, exceptions *)
(* ===================================================================== *)

(** Exceptions the modelled code can meet.  [ProviderError] stands for
    whatever a data-provider call raises. *)
Inductive exn : Type :=
| KeyError
| IndexError
| TypeError
| AttributeError
| ProviderError.

(** A computation that returns a value or raises. *)
Definition res (A : Type) : Type := exn + A.

Definition ok {A} (a : A) : res A := inr a.
Definition raise {A} (e : exn) : res A := inl e.

Definition bind {A B} (m : res A) (k : A -> res B) : res B :=
  match m with
  | inl e => inl e
  | inr a => k a
  end.

Notation "'let!' x ':=' m 'in' k" := (bind m (fun x => k))
  (at level 10, x name, m at level 100, k at level 200, only parsing).

(** [try: m except: d]. *)
Definition try_except {A} (m : res A) (d : A) : A :=
  match m with
  | inl _ => d
  | inr a => a
  end.

(** Values decoded from the quote provider's JSON: null, a number, a
    string or an object.  A JSON number is finite.  (Booleans and arrays
    do not occur in the fields the screener reads.) *)
#[local] Set Warnings "-register-all".
Inductive pyval : Type :=
| VNone
| VNum (x : Q)
| VStr (s : string)
| VDict (d : gmap string pyval).
#[local] Set Warnings "register-all".

(** [v.get(k, default)]: only a dict has the method. *)
Definition py_get (v : pyval) (k : string) (default : pyval) : res pyval :=
  match v with
  | VDict d => ok (match d !! k with Some x => x | None => default end)
  | _ => raise AttributeError
  end.

Definition is_None (v : pyval) : bool :=
  match v with VNone => true | _ => false end.

(** [v == 0]: never raises; only a number can equal 0. *)
Definition py_eq_zero (v : pyval) : bool :=
  match v with VNum x => (x =? 0)%num | _ => false end.

(** Truth value of [v] in a condition. *)
Definition py_truthy (v : pyval) : bool :=
  match v with
  | VNone => false
  | VNum x => negb (x =? 0)%num
  | VStr s => negb (String.eqb s "")
  | VDict d => negb (bool_decide (d = ∅))
  end.

(** Ordering comparisons of a value with a number: they raise
    [TypeError] unless the value is a number. *)
Definition py_lt (v : pyval) (q : Q) : res bool :=
  match v with VNum x => ok (x <? q)%num | _ => raise TypeError end.
Definition py_le (v : pyval) (q : Q) : res bool :=
  match v with VNum x => ok (x <=? q)%num | _ => raise TypeError end.
Definition py_gt (v : pyval) (q : Q) : res bool :=
  match v with VNum x => ok (x >? q)%num | _ => raise TypeError end.

Definition as_num (v : pyval) : res num :=
  match v with VNum x => ok (Fin x) | _ => raise TypeError end.

(** [x in s] on strings: [x] occurs in [s] as a substring. *)
Fixpoint substring_of (x s : string) : bool :=
  String.prefix x s ||
  match s with
  | EmptyString => false
  | String _ s' => substring_of x s'
  end.

(** [x in v]: substring of a string, key of a dict, [TypeError] on
    null or a number. *)
Definition py_in (x : string) (v : pyval) : res bool :=
  match v with
  | VStr s => ok (substring_of x s)
  | VDict d => ok (bool_decide (is_Some (d !! x)))
  | _ => raise TypeError
  end.

(** [any(x in v for x in xs)]: stops at the first hit, raises where a
    membership test raises. *)
Fixpoint py_any_in (xs : list string) (v : pyval) : res bool :=
  match xs with
  | [] => ok false
  | x :: xs' =>
      let! b := py_in x v in
      if b then ok true else py_any_in xs' v
  end.

(* ===================================================================== *)
(** * Bulk Screener ([src/filters.py]) *)
(* ===================================================================== *)

Module Filters.

(** A row of the screener's output table. *)
Record survivor_row : Type := SurvivorRow {
  Ticker : string;
  Sector : pyval;
  Price : pyval;
  Op_Margin_pct : num;      (* "Op Margin %" *)
  PE : num;                 (* "P/E" *)
  Curr_Ratio : pyval;       (* "Curr Ratio" *)
  Mkt_Cap_B : num           (* "Mkt Cap (B)" *)
}.

(** The fields read from one ticker's bundle, lines 59-92. *)
Record bundle : Type := Bundle {
  price : pyval;
  vol : pyval;
  cap : pyval;
  sector : pyval;
  curr_ratio : pyval;
  op_margins : pyval;
  pe : pyval
}.

Definition empty_dict : pyval := VDict ∅.

Definition none_to_zero (v : pyval) : pyval :=
  if is_None v then VNum 0 else v.

(** Lines 59-92 of [get_initial_survivors]. *)
Definition extract (data : pyval) : res bundle :=
  let! price_mod := py_get data "price" empty_dict in
  let! price := py_get price_mod "regularMarketPrice" (VNum 0) in
  let price := none_to_zero price in
  let! detail := py_get data "summaryDetail" empty_dict in
  let! vol := py_get detail "averageVolume" (VNum 0) in
  let! vol := (if is_None vol || py_eq_zero vol then
             let! price_mod := py_get data "price" empty_dict in
             py_get price_mod "averageDailyVolume10Day" (VNum 0)
           else ok vol) in
  let! price_mod := py_get data "price" empty_dict in
  let! cap := py_get price_mod "marketCap" (VNum 0) in
  let cap := none_to_zero cap in
  let! profile := py_get data "summaryProfile" empty_dict in
  let! sector := py_get profile "sector" (VStr "Unknown") in
  let! fin_data := py_get data "financialData" empty_dict in
  let! curr_ratio := py_get fin_data "currentRatio" (VNum 0) in
  let! op_margins := py_get fin_data "operatingMargins" (VNum 0) in
  let curr_ratio := none_to_zero curr_ratio in
  let op_margins := none_to_zero op_margins in
  let! detail := py_get data "summaryDetail" empty_dict in
  let! pe := py_get detail "trailingPE" VNone in
  ok (Bundle price vol cap sector curr_ratio op_margins pe).

Section Screener.

Variables MIN_PRICE MIN_VOLUME MIN_CAP MIN_CURRENT_RATIO : Q.
Variable EXCLUDED_SECTORS : list string.
Variable MAX_PE_RATIO : Q.

(** [pe is not None and pe > MAX_PE_RATIO]. *)
Definition pe_too_high (pe : pyval) : res bool :=
  if is_None pe then ok false else py_gt pe MAX_PE_RATIO.

(** Lines 94-142: the filters in the order of the source, then the
    output row.  [None] is a [continue]. *)
Definition apply_filters (symbol : string) (b : bundle)
  : res (option survivor_row) :=
  let! c := pe_too_high (pe b) in
  if c then ok None else
  let! c := py_lt (price b) MIN_PRICE in
  if c then ok None else
  let! c := py_lt (cap b) MIN_CAP in
  if c then ok None else
  let! c := py_lt (vol b) MIN_VOLUME in
  if c then ok None else
  let! c := py_any_in EXCLUDED_SECTORS (sector b) in
  if c then ok None else
  let! c := py_lt (curr_ratio b) MIN_CURRENT_RATIO in
  if c then ok None else
  let! c := py_le (op_margins b) 0 in
  if c then ok None else
  let! m := as_num (op_margins b) in
  let! p := (if py_truthy (pe b) then let! x := as_num (pe b) in ok (round2 x)
         else ok (Fin 0)) in
  let! k := as_num (cap b) in
  ok (Some {| Ticker := symbol;
              Sector := sector b;
              Price := price b;
              Op_Margin_pct := round2 (m * 100);
              PE := p;
              Curr_Ratio := curr_ratio b;
              Mkt_Cap_B := round2 (k / 1000000000) |}).

(** One iteration of the loop over [df_modules.items()], lines 54-145:
    a string in place of the bundle is skipped, and so is a ticker whose
    processing raises. *)
Definition screen_symbol (symbol : string) (data : pyval)
  : option survivor_row :=
  match data with
  | VStr _ => None
  | _ => try_except (let! b := extract data in apply_filters symbol b) None
  end.

(** [tickers[i : i + chunk_size] for i in range(0, len(tickers), chunk_size)];
    the first argument bounds the number of chunks. *)
Fixpoint chunks_from (fuel : nat) (chunk_size : nat) (l : list string)
  : list (list string) :=
  match fuel, l with
  | S fuel', _ :: _ => take chunk_size l :: chunks_from fuel' chunk_size (drop chunk_size l)
  | _, _ => []
  end.

Definition chunk_size : nat := 500.

Definition chunks (tickers : list string) : list (list string) :=
  chunks_from (length tickers) chunk_size tickers.

(** The bulk quote provider: for a chunk, the items of the returned
    mapping (symbol, bundle), or an exception. *)
Variable get_modules : list string -> res (list (string * pyval)).

(** One batch, lines 42-148. *)
Definition screen_chunk (chunk : list string) : list survivor_row :=
  match get_modules chunk with
  | inl _ => []
  | inr items => omap (fun '(symbol, data) => screen_symbol symbol data) items
  end.

Definition get_initial_survivors (tickers : list string) : list survivor_row :=
  concat (map screen_chunk (chunks tickers)).

End Screener.

End Filters.

(* ===================================================================== *)
(** * Configuration helpers, Altman Z-Score, Trend Filter ([src/setup.py]) *)
(* ===================================================================== *)

(** A cache entry: the [metrics] dictionary the Deep Analyzer stores per
    ticker, always with the four keys [timestamp], [z_score], [roic],
    [int_cov]. *)
Record metrics : Type := Metrics {
  timestamp : num;
  z_score : num;
  roic : num;
  int_cov : num
}.

(** A yfinance statement table ([financials], [balance_sheet]): line
    items by name, each a row of values over the reporting periods, most
    recent first.  Every row of a table has [periods] values. *)
Record statement : Type := Statement {
  periods : nat;
  items : gmap string (list num)
}.

(** [df.empty]: an axis of length 0. *)
Definition empty (df : statement) : bool :=
  (periods df =? 0)%nat || bool_decide (items df = ∅).

(** [k in df.index]. *)
Definition in_index (k : string) (df : statement) : bool :=
  bool_decide (is_Some (items df !! k)).

(** [df.loc[k]]. *)
Definition loc (df : statement) (k : string) : res (list num) :=
  match items df !! k with
  | Some row => ok row
  | None => raise KeyError
  end.

(** [series.iloc[0]]. *)
Definition iloc0 (row : list num) : res num :=
  match row with
  | v :: _ => ok v
  | [] => raise IndexError
  end.

(** A cell of a table: a number or a string. *)
Inductive cell : Type :=
| CNum (x : num)
| CStr (s : string).

(** A row of a table that carries a [Ticker] column; the other columns
    by name. *)
Record trow : Type := TRow {
  Ticker : string;
  cols : gmap string cell
}.

(** Historical prices as [yf.download] returns them: [nrows] daily rows
    and either one column per field ([Fields], a single ticker) or, under
    [group_by="ticker"], the fields of every ticker ([ByTicker]). *)
Inductive price_columns : Type :=
| Fields (c : gmap string (list num))
| ByTicker (g : gmap string (gmap string (list num))).

Record price_frame : Type := PriceFrame {
  nrows : nat;
  pcols : price_columns
}.

Module Setup.

(** The persisted cache: [None] when the file is absent or unreadable. *)
Definition cache_file : Type := option (gmap string metrics).

Definition load_cache (f : cache_file) : gmap string metrics :=
  match f with
  | Some m => m
  | None => ∅
  end.

Definition save_cache (cache_data : gmap string metrics) : cache_file :=
  Some cache_data.

(** The helper [get_val] of [calculate_altman_z_yfinance]. *)
Fixpoint get_val (df : statement) (keys : list string) : res num :=
  match keys with
  | [] => ok (Fin 0)
  | k :: keys' =>
      if in_index k df then (let! row := loc df k in iloc0 row)
      else get_val df keys'
  end.

(** [calculate_altman_z_yfinance], lines 90-164. *)
Definition calculate_altman_z_yfinance
    (bs fin : statement) (market_cap : num) : num :=
  try_except
    (let! total_assets := get_val bs ["Total Assets"] in
     let! total_liab :=
       get_val bs ["Total Liabilities Net Minority Interest"; "Total Liabilities"] in
     let! current_assets := get_val bs ["Current Assets"; "Total Current Assets"] in
     let! current_liab :=
       get_val bs ["Current Liabilities"; "Total Current Liabilities"] in
     let! retained_earnings := get_val bs ["Retained Earnings"] in
     let! ebit := get_val fin ["EBIT"; "Operating Income"] in
     let! total_revenue := get_val fin ["Total Revenue"] in
     if (total_assets =? 0)%num || (total_liab =? 0)%num then ok (Fin 0)
     else
       let A := ((current_assets - current_liab) / total_assets)%num in
       let B := (retained_earnings / total_assets)%num in
       let C := (ebit / total_assets)%num in
       let D := (market_cap / total_liab)%num in
       let E := (total_revenue / total_assets)%num in
       ok ((12 # 10) * A + (14 # 10) * B + (33 # 10) * C + (6 # 10) * D
           + 1 * E)%num)
    (Fin 0).

(** ** Trend Filter *)

(** [data.columns.levels[0]]: only grouped columns have levels. *)
Definition levels0 (data : price_frame)
  : res (gmap string (gmap string (list num))) :=
  match pcols data with
  | ByTicker g => ok g
  | Fields _ => raise AttributeError
  end.

(** Lines 205-210: the history of one ticker; [None] is the [continue]
    of line 207. *)
Definition history_of (data : price_frame) (n_tickers : nat) (ticker : string)
  : res (option price_frame) :=
  if (1 <? n_tickers)%nat then
    let! g := levels0 data in
    match g !! ticker with
    | None => ok None
    | Some c => ok (Some (PriceFrame (nrows data) (Fields c)))
    end
  else ok (Some data).

(** [df_hist["Close"]].  On grouped columns the key selects no price
    column, and what follows raises. *)
Definition close_of (df_hist : price_frame) : res (list num) :=
  match pcols df_hist with
  | Fields c =>
      match c !! "Close" with
      | Some col => ok col
      | None => raise KeyError
      end
  | ByTicker _ => raise KeyError
  end.

(** [series.iloc[-1]]. *)
Definition iloc_last (col : list num) : res num :=
  match last col with
  | Some v => ok v
  | None => raise IndexError
  end.

(** [col.rolling(window).mean()] at the last row: the mean of the last
    [window] values, NaN when there are fewer or one of them is not
    finite. *)
Definition rolling_mean_last (window : nat) (col : list num) : num :=
  let w := drop (length col - window) col in
  if (length w <? window)%nat || negb (forallb is_fin w) then NaN
  else mean w.

(** Lines 203-237: one ticker; [None] when it is skipped. *)
Definition trend_row (df_input : list trow) (data : price_frame)
    (n_tickers : nat) (ticker : string) : res (option trow) :=
  let! h := history_of data n_tickers ticker in
  match h with
  | None => ok None
  | Some df_hist =>
      if (nrows df_hist <? 200)%nat then ok None
      else
        let! close := close_of df_hist in
        let! sma_200 :=
          (let! _ := iloc_last close in ok (rolling_mean_last 200 close)) in
        let! current_price := iloc_last close in
        let is_uptrend := (current_price >? sma_200)%num in
        let distance_pct :=
          round2 (((current_price - sma_200) / sma_200) * 100)%num in
        if is_uptrend then
          match find (fun r => bool_decide (Ticker r = ticker)) df_input with
          | None => raise IndexError
          | Some base_row =>
              ok (Some (TRow (Ticker base_row)
                          (<["Trend_Dist_%" := CNum distance_pct]>
                             (<["SMA_200" := CNum (round2 sma_200)]>
                                (cols base_row)))))
          end
        else ok None
  end.

(** The key of a row for [sort_values(by="Trend_Dist_%")]. *)
Definition sort_key (r : trow) : num :=
  match cols r !! "Trend_Dist_%" with
  | Some (CNum x) => x
  | _ => NaN
  end.

(** Ascending order with missing values last. *)
Definition key_le (a b : num) : bool :=
  if is_nan b then true else if is_nan a then false else (a <=? b)%num.

Fixpoint insert_sorted (r : trow) (l : list trow) : list trow :=
  match l with
  | [] => [r]
  | r' :: l' =>
      if key_le (sort_key r) (sort_key r') then r :: l
      else r' :: insert_sorted r l'
  end.

(** [df.sort_values(by="Trend_Dist_%", ascending=True)]; rows with equal
    keys are kept in their order. *)
Definition sort_values (l : list trow) : list trow :=
  foldr insert_sorted [] l.

Section Trend.

(** The historical price provider, [yf.download(tickers, ...)]. *)
Variable download : list string -> res price_frame.

(** The loop of lines 202-240. *)
Definition trend_data (df_input : list trow) (data : price_frame)
  : list trow :=
  let tickers := map Ticker df_input in
  omap (fun ticker =>
          try_except (trend_row df_input data (length tickers) ticker) None)
       tickers.

(** [apply_trend_alignment], lines 168-254. *)
Definition apply_trend_alignment (df_input : list trow) : list trow :=
  match df_input with
  | [] => df_input
  | _ =>
      let tickers := map Ticker df_input in
      match download tickers with
      | inl _ => df_input
      | inr data => sort_values (trend_data df_input data)
      end
  end.

End Trend.

End Setup.

(* ===================================================================== *)
(** * Deep Analyzer ([src/financial_analysis.py]) *)
(* ===================================================================== *)

Module FinancialAnalysis.

Inductive tier : Type := Fortress | Strong | Risky.

(** A row of the analyzer's output: the columns copied from the
    screener's row of the ticker ([base_row]) and the computed ones. *)
Record analysis_row : Type := AnalysisRow {
  base_row : Filters.survivor_row;
  Tier : tier;
  Z_Score : num;            (* "Z-Score" *)
  ROIC_pct : num;           (* "ROIC %" *)
  Avg_Margin_4Y : num;      (* "Avg Margin (4Y)" *)
  Int_Cov : num             (* "Int Cov" *)
}.

(** The local state of the loop of [get_advanced_metrics]: the cache
    dictionary, the rows collected so far, the binding of the function's
    local variable [avg_margin] (unbound until first assigned), and the
    tickers whose statements were requested from the provider. *)
Record loop_state : Type := LoopState {
  cache : gmap string metrics;
  final_data : list analysis_row;
  avg_margin : option num;
  fetched : list string
}.

(** The test of line 85 on a cache entry. *)
Definition is_fresh (cached_data : metrics) (current_time expiry_seconds : num)
  : bool :=
  (current_time - timestamp cached_data <? expiry_seconds)%num.

(** [(op_income_history / revenue_history)]: rows of the same table
    divide value by value; [pd.Series([0])] (first argument [None]) shares
    no label with a row of the table, so every value is missing. *)
Definition series_div (op : option (list num)) (rev : list num) : list num :=
  match op with
  | Some r => zip_with div r rev
  | None => NaN :: map (fun _ => NaN) rev
  end.

Definition dropna (l : list num) : list num :=
  filter (fun x => is_nan x = false) l.

(** Lines 104-115. *)
Definition yearly_margins (fin : statement) : res (list num) :=
  let! op_income_history :=
    (if in_index "Operating Income" fin then
       let! r := loc fin "Operating Income" in ok (Some r)
     else if in_index "EBIT" fin then
       let! r := loc fin "EBIT" in ok (Some r)
     else ok None) in
  let! revenue_history := loc fin "Total Revenue" in
  ok (dropna (series_div op_income_history revenue_history)).

(** The helper [get_item], lines 132-137. *)
Fixpoint get_item (df : statement) (keys : list string) : res num :=
  match keys with
  | [] => ok (Fin 0)
  | k :: keys' =>
      if in_index k df then (let! row := loc df k in iloc0 row)
      else get_item df keys'
  end.

(** Lines 151-155. *)
Definition interest_coverage (ebit int_exp : num) : num :=
  let int_exp := abs int_exp in
  if (int_exp =? 0)%num then Fin 100 else (ebit / int_exp)%num.

(** Lines 159-163. *)
Definition return_on_invested_capital (ebit total_assets curr_liab : num)
  : num :=
  let invested_cap := (total_assets - curr_liab)%num in
  if (invested_cap <=? 0)%num then Fin 0 else (ebit / invested_cap)%num.

Section Analyzer.

Variables CACHE_EXPIRY_DAYS FORTRESS_MARGIN_THRESHOLD : Q.
Variables MIN_INTEREST_COVERAGE MIN_ROIC : Q.
Variable calculate_altman_z_yfinance : statement -> statement -> num -> num.
Variable save_cache : gmap string metrics -> Setup.cache_file.

(** The statements provider: [yf.Ticker(ticker).financials] and
    [.balance_sheet], or an exception. *)
Variable fetch_statements : string -> res (statement * statement).

(** [time.time()] at the start of the run. *)
Variable current_time : Q.

Definition expiry_seconds : Q := CACHE_EXPIRY_DAYS * 86400.

(** [determine_tier_history], lines 47-81. *)
Definition determine_tier_history
    (metrics : metrics) (is_fortress_margin is_pos_margin : bool) : tier :=
  let z_val := z_score metrics in
  if (int_cov metrics <? MIN_INTEREST_COVERAGE)%num then Risky
  else if (roic metrics <? MIN_ROIC)%num then Risky
  else if is_fortress_margin && (z_val >=? (299 # 100))%num then Fortress
  else if is_pos_margin && (z_val >=? (181 # 100))%num then Strong
  else Risky.

(** Lines 84-87: a fresh entry marked as failed skips the ticker. *)
Definition skip_cached (cached_data : option metrics) : bool :=
  match cached_data with
  | Some e =>
      is_fresh e current_time expiry_seconds && (roic e =? - (999 # 1))%num
  | None => false
  end.

(** Lines 102-129: the margin flags, and the binding of [avg_margin]
    after the block ([avg_margin] is assigned on one path only). *)
Definition margin_flags (fin : statement) (avg_margin : option num)
  : bool * bool * option num :=
  match yearly_margins fin with
  | inr yearly =>
      if (0 <? length yearly)%nat then
        let avg := mean yearly in
        ((avg >? FORTRESS_MARGIN_THRESHOLD)%num, (avg >? 0)%num, Some avg)
      else (false, false, avg_margin)
  | inl _ => (false, false, avg_margin)
  end.

(** Lines 139-204: the ratios, the cache entry and the output row.
    Returns the entry and the row. *)
Definition analyze (survivor_df : list Filters.survivor_row) (ticker : string)
    (fin bs : statement) (is_fortress_margin is_positive_margin : bool)
    (avg_margin : option num) : res (metrics * analysis_row) :=
  let! ebit := get_item fin ["EBIT"; "Operating Income"; "Pretax Income"] in
  let! int_exp :=
    get_item fin ["Interest Expense"; "Interest Expense Non Operating"] in
  let! total_assets := get_item bs ["Total Assets"] in
  let! curr_liab :=
    get_item bs ["Current Liabilities"; "Total Current Liabilities"] in
  let int_cov := interest_coverage ebit int_exp in
  let roic := return_on_invested_capital ebit total_assets curr_liab in
  match find (fun r => bool_decide (Filters.Ticker r = ticker)) survivor_df with
  | None => raise IndexError
  | Some base_row =>
      let mkt_cap_raw := (Filters.Mkt_Cap_B base_row * 1000000000)%num in
      let z := calculate_altman_z_yfinance bs fin mkt_cap_raw in
      let metrics :=
        {| timestamp := current_time;
           z_score := round2 z;
           roic := roic;
           int_cov := round2 int_cov |} in
      let tier :=
        determine_tier_history metrics is_fortress_margin is_positive_margin in
      ok (metrics,
          {| base_row := base_row;
             Tier := tier;
             Z_Score := round2 z;
             ROIC_pct := round2 (roic * 100);
             Avg_Margin_4Y :=
               match avg_margin with
               | Some a => round2 (a * 100)
               | None => Fin 0
               end;
             Int_Cov := round2 int_cov |})
  end.

(** The body of the loop over the tickers, lines 39-207. *)
Definition analyze_ticker (survivor_df : list Filters.survivor_row)
    (st : loop_state) (ticker : string) : loop_state :=
  let cached_data := cache st !! ticker in
  if skip_cached cached_data then st
  else
    let st := {| cache := cache st; final_data := final_data st;
                 avg_margin := avg_margin st;
                 fetched := fetched st ++ [ticker] |} in
    match fetch_statements ticker with
    | inl _ => st
    | inr (fin, bs) =>
        if empty fin || empty bs then st
        else
          let '(is_fortress_margin, is_positive_margin, avg) :=
            margin_flags fin (avg_margin st) in
          match analyze survivor_df ticker fin bs
                  is_fortress_margin is_positive_margin avg with
          | inl _ =>
              {| cache := cache st; final_data := final_data st;
                 avg_margin := avg; fetched := fetched st |}
          | inr (metrics, row) =>
              {| cache := <[ticker := metrics]> (cache st);
                 final_data := final_data st ++ [row];
                 avg_margin := avg; fetched := fetched st |}
          end
    end.

(** [get_advanced_metrics]: the output table, the cache file after
    [save_cache], and the tickers requested from the provider. *)
Definition get_advanced_metrics (survivor_df : list Filters.survivor_row)
    (file : Setup.cache_file)
  : list analysis_row * Setup.cache_file * list string :=
  let tickers := map Filters.Ticker survivor_df in
  let loaded := Setup.load_cache file in
  let st :=
    fold_left (analyze_ticker survivor_df) tickers
      {| cache := loaded; final_data := []; avg_margin := None; fetched := [] |} in
  (final_data st, save_cache (cache st), fetched st).

End Analyzer.

End FinancialAnalysis.

(* ===================================================================== *)
(** * The filter predicate of the specification *)
(* ===================================================================== *)

Module FilterSpec.

Import Filters.

(** [v] is a number and at least [q]. *)
Definition at_least (v : pyval) (q : Q) : Prop :=
  exists x, v = VNum x /\ q <= x.

Section Predicate.

Variables MIN_PRICE MIN_VOLUME MIN_CAP MIN_CURRENT_RATIO : Q.
Variable EXCLUDED_SECTORS : list string.
Variable MAX_PE_RATIO : Q.

(** "Ticker survives iff ALL hold", on the fields read from the bundle.
    A comparison holds of a number only; the sector clause asks that each
    membership test is defined and negative. *)
Definition all_filters_hold (b : bundle) : Prop :=
  (pe b = VNone \/ exists x, pe b = VNum x /\ x <= MAX_PE_RATIO) /\
  at_least (price b) MIN_PRICE /\
  at_least (cap b) MIN_CAP /\
  at_least (vol b) MIN_VOLUME /\
  (forall x, x ∈ EXCLUDED_SECTORS -> py_in x (sector b) = ok false) /\
  at_least (curr_ratio b) MIN_CURRENT_RATIO /\
  (exists x, op_margins b = VNum x /\ 0 < x).

End Predicate.

End FilterSpec.

(* ===================================================================== *)
(** * The fields of a bundle, read as the specification words them *)
(* ===================================================================== *)

Module QuoteSpec.

(** The value of field [key] of module [module] of a bundle; [None] when
    the bundle has no such module or the module has no such field. *)
Definition raw_field (d : gmap string pyval) (module key : string)
  : option pyval :=
  match d !! module with
  | Some (VDict m) => m !! key
  | _ => None
  end.




(** The average volume: the primary field, or the 10-day average when
    the primary field is absent, null or zero. *)
Definition average_volume (d : gmap string pyval) : pyval :=
  let ten_day :=
    match raw_field d "price" "averageDailyVolume10Day" with
    | Some v => v
    | None => VNum 0
    end in
  match raw_field d "summaryDetail" "averageVolume" with
  | None | Some VNone => ten_day
  | Some (VNum x) => if Qeq_bool x 0 then ten_day else VNum x
  | Some v => v
  end.


Section Predicate.

Variables MIN_PRICE MIN_VOLUME MIN_CAP MIN_CURRENT_RATIO : Q.
Variable EXCLUDED_SECTORS : list string.
Variable MAX_PE_RATIO : Q.


End Predicate.

End QuoteSpec.

(* ===================================================================== *)
(** * The moving average of the specification *)
(* ===================================================================== *)

Module TrendSpec.

(** The 200-period simple moving average ending at the most recent
    observation: the sum of the last 200 closing prices over 200. *)
Definition sma_200 (closes : list Q) : Q :=
  fold_right Qplus 0 (drop (length closes - 200) closes) / 200.

End TrendSpec.

(* ===================================================================== *)
(** * Observations and the moving average of a price column *)
(* ===================================================================== *)

Module HistorySpec.

(** A row of the column is an observation when it holds a price. *)
Definition observation (x : num) : option Q :=
  match x with
  | Fin q => Some q
  | _ => None
  end.

(** The daily observations of a column. *)
Definition observations (closes : list num) : list Q :=
  omap observation closes.

(** The prices of a run of rows when each of them is an observation. *)
Fixpoint all_observed (rows : list num) : option (list Q) :=
  match rows with
  | [] => Some []
  | x :: rows' =>
      match observation x, all_observed rows' with
      | Some q, Some qs => Some (q :: qs)
      | _, _ => None
      end
  end.

(** The 200 periods ending at the most recent row, when the column has
    that many rows and each of them is an observation. *)
Definition last_200 (closes : list num) : option (list Q) :=
  if (200 <=? length closes)%nat
  then all_observed (drop (length closes - 200) closes)
  else None.

(** The 200-period simple moving average ending at the most recent row;
    there is none when one of the 200 periods has no price. *)
Definition sma_200 (closes : list num) : option Q :=
  match last_200 closes with
  | Some window => Some (fold_right Qplus 0 window / 200)
  | None => None
  end.


End HistorySpec.

(* ===================================================================== *)
(** * Concrete inputs *)
(* ===================================================================== *)

Module Examples.

(** The balance sheet and income statement of the specification's
    Altman example. *)
Definition bs_spec : statement :=
  Statement 1 (list_to_map
    [("Total Assets", [Fin 1000]);
     ("Total Liabilities Net Minority Interest", [Fin 600]);
     ("Current Assets", [Fin 400]);
     ("Current Liabilities", [Fin 200]);
     ("Retained Earnings", [Fin 100])]).

Definition fin_spec : statement :=
  Statement 1 (list_to_map
    [("EBIT", [Fin 150]); ("Total Revenue", [Fin 900])]).

(** The same balance sheet with total assets 0. *)
Definition bs_no_assets : statement :=
  Statement 1 (<["Total Assets" := [Fin 0]]> (items bs_spec)).

(** A screener row for a ticker. *)
Definition survivor (ticker : string) : Filters.survivor_row :=
  {| Filters.Ticker := ticker;
     Filters.Sector := VStr "Technology";
     Filters.Price := VNum 50;
     Filters.Op_Margin_pct := Fin 20;
     Filters.PE := Fin 15;
     Filters.Curr_Ratio := VNum 2;
     Filters.Mkt_Cap_B := Fin 5 |}.

(** An income statement with a 20% operating margin. *)
Definition fin_profitable : statement :=
  Statement 1 (list_to_map
    [("Operating Income", [Fin 20]); ("Total Revenue", [Fin 100]);
     ("EBIT", [Fin 20]); ("Interest Expense", [Fin 2])]).

(** An income statement without a "Total Revenue" line: the margin
    computation raises [KeyError]. *)
Definition fin_no_revenue : statement :=
  Statement 1 (list_to_map
    [("EBIT", [Fin 10]); ("Interest Expense", [Fin 2])]).

(** An income statement with no interest expense and a negative EBIT. *)
Definition fin_no_debt : statement :=
  Statement 1 (list_to_map
    [("EBIT", [Fin (-50)]); ("Total Revenue", [Fin 100]);
     ("Interest Expense", [Fin 0])]).

(** A statements provider that answers for "AAA" and "BBB" and fails for
    every other ticker. *)
Definition statements_of (ticker : string) : res (statement * statement) :=
  if String.eqb ticker "AAA" then ok (fin_profitable, bs_spec)
  else if String.eqb ticker "BBB" then ok (fin_no_revenue, bs_spec)
  else raise ProviderError.

(** A statements provider with no data for any ticker. *)
Definition no_statements (ticker : string) : res (statement * statement) :=
  ok (Statement 0 ∅, Statement 0 ∅).

(** A run of the Deep Analyzer with a 7-day expiry, a 5% fortress margin,
    a minimum coverage of 3 and a minimum ROIC of 10%. *)
Definition run (provider : string -> res (statement * statement))
    (now : Q) (tickers : list string) (file : Setup.cache_file) :=
  FinancialAnalysis.get_advanced_metrics 7 (5 # 100) 3 (1 # 10)
    Setup.calculate_altman_z_yfinance Setup.save_cache provider now
    (map survivor tickers) file.

(** A bundle of the quote provider, by sector and the two volume
    fields. *)
Definition quote (sector average_volume ten_day_volume : pyval) : pyval :=
  VDict (list_to_map
    [("price",
      VDict (list_to_map
        [("regularMarketPrice", VNum 50);
         ("marketCap", VNum 5000000000);
         ("averageDailyVolume10Day", ten_day_volume)]));
     ("summaryDetail",
      VDict (list_to_map
        [("averageVolume", average_volume); ("trailingPE", VNum 15)]));
     ("summaryProfile", VDict (list_to_map [("sector", sector)]));
     ("financialData",
      VDict (list_to_map
        [("currentRatio", VNum 2); ("operatingMargins", VNum (2 # 10))]))]).

(** A healthy bundle, one whose two volume fields are null, and one whose
    sector is null. *)
Definition quote_ok : pyval :=
  quote (VStr "Technology") (VNum 2000000) (VNum 1500000).
Definition quote_null_volume : pyval :=
  quote (VStr "Technology") VNone VNone.
Definition quote_null_sector : pyval :=
  quote VNone (VNum 2000000) (VNum 1500000).

(** A quote provider that answers with [quote_ok] for every requested
    symbol. *)
Definition quotes_of (chunk : list string) : res (list (string * pyval)) :=
  ok (map (fun symbol => (symbol, quote_ok)) chunk).

(** The screener with a minimum price of 5, volume of 100000, market cap
    of one billion, current ratio of 1, at most a P/E of 25, and the
    financial sector excluded. *)
Definition screen : string -> pyval -> option Filters.survivor_row :=
  Filters.screen_symbol 5 100000 1000000000 1 ["Financial"] 25.

Definition filters : string -> Filters.bundle -> res (option Filters.survivor_row) :=
  Filters.apply_filters 5 100000 1000000000 1 ["Financial"] 25.

(** Two rows of a table handed to the Trend Filter. *)
Definition trend_input : list trow :=
  [TRow "AAA" {[ "Tier" := CStr "Fortress" ]};
   TRow "BBB" {[ "Tier" := CStr "Strong" ]}].

(** A year of prices: 199 closes at 10 and a last close at 12. *)
Definition rising_closes : list num := repeat (Fin 10) 199 ++ [Fin 12].

(** A download in which "AAA" has no "Close" column and "BBB" closes
    above its average. *)
Definition prices : price_frame :=
  PriceFrame 200
    (ByTicker (list_to_map
       [("AAA", {[ "Open" := rising_closes ]});
        ("BBB", {[ "Close" := rising_closes ]})])).

Definition download_prices (tickers : list string) : res price_frame :=
  ok prices.

Definition download_fails (tickers : list string) : res price_frame :=
  raise ProviderError.

End Examples.

(* ===================================================================== *)
(** * Universe Source ([src/fetch.py]) *)
(* ===================================================================== *)

Module Fetch.

(** A row of the NASDAQ symbol directory, with the three columns the
    code reads (the symbol after [astype(str)]). *)
Record listing : Type := Listing {
  Symbol : string;
  ETF : string;
  Test_Issue : string
}.

(** [x.replace("$", "-")]. *)
Fixpoint replace_dollar (x : string) : string :=
  match x with
  | EmptyString => EmptyString
  | String c x' =>
      String (if Ascii.eqb c "$" then "-"%char else c) (replace_dollar x')
  end.

(** [get_combined_universe], on the outcome of the download and the
    parse of the directory: the table, or an exception. *)
Definition get_combined_universe (nasdaq : res (list listing)) : list string :=
  let tickers := [] in
  match nasdaq with
  | inl _ => tickers
  | inr df_us =>
      let df_us :=
        List.filter
          (fun r => String.eqb (Test_Issue r) "N" && String.eqb (ETF r) "N")
          df_us in
      let us_list :=
        map replace_dollar
          (List.filter (fun x => (String.length x <? 5)%nat)
             (map Symbol df_us)) in
      tickers ++ us_list
  end.

End Fetch.

(* ===================================================================== *)
(** * Relations used to state properties of the statements *)
(* ===================================================================== *)

(** Two tables whose lines have the same most recent value (and the same
    lines). *)
Definition same_latest (df df' : statement) : Prop :=
  forall k, head <$> (items df !! k) = head <$> (items df' !! k).

(** The "Trend_Dist_%" of a row, when the column holds a number. *)
Definition trend_dist (r : trow) : option num :=
  match cols r !! "Trend_Dist_%" with
  | Some (CNum x) => Some x
  | _ => None
  end.

(** [x] does not come after [y] in ascending order: the order of the
    rationals, with minus infinity first, plus infinity after every
    rational and a missing value (NaN) last. *)
Definition ascending (x y : num) : Prop :=
  match x, y with
  | _, NaN => True
  | NaN, _ => False
  | NInf, _ => True
  | _, PInf => True
  | Fin a, Fin b => a <= b
  | _, _ => False
  end.

(** Two rows in ascending order of their "Trend_Dist_%". *)
Definition ascending_rows (a b : trow) : Prop :=
  exists x y, trend_dist a = Some x /\ trend_dist b = Some y /\ ascending x y.

(* ===================================================================== *)
(** * More concrete inputs *)
(* ===================================================================== *)

Module MoreExamples.

(** The balance sheet of the Altman example with one more, older period
    for the retained earnings. *)
Definition bs_two_periods : statement :=
  Statement 2
    (<["Retained Earnings" := [Fin 100; Fin 7]]> (items Examples.bs_spec)).

(** A cache file with a fresh entry for "AAA" that is not marked as
    failed. *)
Definition cached_figures : Setup.cache_file :=
  Some {[ "AAA" := Metrics 999990 1 (1 # 2) 5 ]}.

(** An income statement with a revenue line but neither an "Operating
    Income" nor an "EBIT" line. *)
Definition fin_revenue_only : statement :=
  Statement 2 {[ "Total Revenue" := [Fin 100; Fin 90] ]}.

(** A symbol directory: a stock, a stock with a "$" in its symbol, an
    ETF, a test issue and a symbol of five characters. *)
Definition directory : list Fetch.listing :=
  [Fetch.Listing "AAPL" "N" "N"; Fetch.Listing "BRK$" "N" "N";
   Fetch.Listing "SPY" "Y" "N"; Fetch.Listing "ZVZZT" "N" "Y";
   Fetch.Listing "GOOGL" "N" "N"].

(** A download in which "AAA" (last close 12) and "BBB" (last close 11)
    both close above an average near 10. *)
Definition prices_two : price_frame :=
  PriceFrame 200
    (ByTicker (list_to_map
       [("AAA", {[ "Close" := Examples.rising_closes ]});
        ("BBB", {[ "Close" := repeat (Fin 10) 199 ++ [Fin 11] ]})])).

Definition download_two (tickers : list string) : res price_frame :=
  ok prices_two.

(** Closing prices of a download of 250 rows: 50 rows without a price
    and then 200 observations; 150 rows without a price and then 100
    observations; 250 rows with one price missing among the last 200. *)
Definition padded_closes : list num :=
  repeat NaN 50 ++ repeat (Fin 10) 199 ++ [Fin 12].
Definition short_closes : list num :=
  repeat NaN 150 ++ repeat (Fin 10) 99 ++ [Fin 12].
Definition gap_closes : list num :=
  repeat (Fin 10) 100 ++ [NaN] ++ repeat (Fin 10) 148 ++ [Fin 12].

Definition history_input : list trow :=
  [TRow "LEAD" {[ "Tier" := CStr "Fortress" ]};
   TRow "SHORT" {[ "Tier" := CStr "Strong" ]};
   TRow "GAP" {[ "Tier" := CStr "Strong" ]}].

Definition prices_padded : price_frame :=
  PriceFrame 250
    (ByTicker (list_to_map
       [("LEAD", {[ "Close" := padded_closes ]});
        ("SHORT", {[ "Close" := short_closes ]});
        ("GAP", {[ "Close" := gap_closes ]})])).

Definition download_padded (tickers : list string) : res price_frame :=
  ok prices_padded.

End MoreExamples.

(* ===================================================================== *)
(** * Properties of the numbers *)
(* ===================================================================== *)

Section NumFacts.

Lemma ltb_Fin (x y : Q) : (Fin x <? Fin y)%num = true <-> x < y.
Proof.
  unfold ltb; simpl. rewrite Qlt_alt.
  destruct (Qcompare x y); split; congruence.
Qed.

Lemma ltb_Fin_false (x y : Q) : (Fin x <? Fin y)%num = false <-> y <= x.
Proof.
  rewrite <- not_true_iff_false, ltb_Fin. split.
  - apply Qnot_lt_le.
  - apply Qle_not_lt.
Qed.

Lemma leb_Fin (x y : Q) : (Fin x <=? Fin y)%num = true <-> x <= y.
Proof.
  unfold leb; simpl. rewrite Qle_alt.
  destruct (Qcompare x y); split; congruence.
Qed.

Lemma leb_Fin_false (x y : Q) : (Fin x <=? Fin y)%num = false <-> y < x.
Proof.
  rewrite <- not_true_iff_false, leb_Fin. split.
  - apply Qnot_le_lt.
  - apply Qlt_not_le.
Qed.

Lemma eqb_Fin (x y : Q) : (Fin x =? Fin y)%num = true <-> x == y.
Proof.
  unfold eqb; simpl. rewrite Qeq_alt.
  destruct (Qcompare x y); split; congruence.
Qed.

Lemma gtb_Fin (x y : Q) : (Fin x >? Fin y)%num = true <-> y < x.
Proof. unfold gtb. apply ltb_Fin. Qed.

Lemma geb_Fin (x y : Q) : (Fin x >=? Fin y)%num = true <-> y <= x.
Proof. unfold geb. apply leb_Fin. Qed.

(** Only a finite zero has absolute value 0. *)
Lemma abs_eqb_zero (a : num) :
  (abs a =? 0)%num = true -> exists x, a = Fin x /\ x == 0.
Proof.
  destruct a as [x| | |]; simpl; try discriminate.
  intros H. apply eqb_Fin in H. exists x. split; [reflexivity|].
  revert H. apply Qabs_case; intros; lra.
Qed.

Lemma round2_100 : (round2 (Fin 100) =~ Fin 100)%num.
Proof. reflexivity. Qed.

End NumFacts.

(* ===================================================================== *)
(** * Deep Analyzer: tier classification, cache freshness, coverage *)
(* ===================================================================== *)

Import FinancialAnalysis.

(** C1.  For every pair of thresholds, the tier is a function of the
    interest coverage, the ROIC, the two margin flags and the Z-score
    alone (the entry's timestamp plays no part), decided in this order:
    coverage below [MIN_INTEREST_COVERAGE] gives Risky; else ROIC below
    [MIN_ROIC] gives Risky; else a fortress margin with z >= 2.99 gives
    Fortress; else a positive margin with z >= 1.81 gives Strong; else
    Risky.  Under thresholds that separate the specification's examples
    (2 < MIN_INTEREST_COVERAGE <= 50, MIN_ROIC <= 0.15): (50, 0.15,
    fortress, z = 3.5) is Fortress, (50, 0.15, not fortress, positive,
    z = 2.0) is Strong and (2, 0.15, z = 5.0) is Risky. *)
Theorem tier_classification_rule (MIN_INTEREST_COVERAGE MIN_ROIC : Q) :
  let tier_of := determine_tier_history MIN_INTEREST_COVERAGE MIN_ROIC in
  (forall m m' fm pm,
      int_cov m = int_cov m' -> roic m = roic m' -> z_score m = z_score m' ->
      tier_of m fm pm = tier_of m' fm pm) /\
  (forall m fm pm,
      (int_cov m <? MIN_INTEREST_COVERAGE)%num = true ->
      tier_of m fm pm = Risky) /\
  (forall m fm pm,
      (int_cov m <? MIN_INTEREST_COVERAGE)%num = false ->
      (roic m <? MIN_ROIC)%num = true ->
      tier_of m fm pm = Risky) /\
  (forall m pm,
      (int_cov m <? MIN_INTEREST_COVERAGE)%num = false ->
      (roic m <? MIN_ROIC)%num = false ->
      (z_score m >=? 299 # 100)%num = true ->
      tier_of m true pm = Fortress) /\
  (forall m fm,
      (int_cov m <? MIN_INTEREST_COVERAGE)%num = false ->
      (roic m <? MIN_ROIC)%num = false ->
      fm && (z_score m >=? 299 # 100)%num = false ->
      (z_score m >=? 181 # 100)%num = true ->
      tier_of m fm true = Strong) /\
  (forall m fm pm,
      (int_cov m <? MIN_INTEREST_COVERAGE)%num = false ->
      (roic m <? MIN_ROIC)%num = false ->
      fm && (z_score m >=? 299 # 100)%num = false ->
      pm && (z_score m >=? 181 # 100)%num = false ->
      tier_of m fm pm = Risky) /\
  (2 < MIN_INTEREST_COVERAGE <= 50 -> MIN_ROIC <= 15 # 100 ->
   (forall ts pm,
       tier_of (Metrics ts (35 # 10) (15 # 100) 50) true pm = Fortress) /\
   (forall ts,
       tier_of (Metrics ts 2 (15 # 100) 50) false true = Strong) /\
   (forall ts fm pm,
       tier_of (Metrics ts 5 (15 # 100) 2) fm pm = Risky)).
Proof.
  intros tier_of. subst tier_of. unfold determine_tier_history.
  split; [|split; [|split; [|split; [|split; [|split]]]]].
  - intros m m' fm pm -> -> ->. reflexivity.
  - intros m fm pm ->. reflexivity.
  - intros m fm pm -> ->. reflexivity.
  - intros m pm -> -> ->. reflexivity.
  - intros m fm -> -> -> ->. reflexivity.
  - intros m fm pm -> -> -> ->. reflexivity.
  - intros Hcov Hroic.
    assert (Hc50 : (Fin 50 <? MIN_INTEREST_COVERAGE)%num = false)
      by (apply ltb_Fin_false; lra).
    assert (Hc2 : (Fin 2 <? MIN_INTEREST_COVERAGE)%num = true)
      by (apply ltb_Fin; lra).
    assert (Hr : (Fin (15 # 100) <? MIN_ROIC)%num = false)
      by (apply ltb_Fin_false; lra).
    split; [|split].
    + intros ts pm. simpl. rewrite Hc50, Hr. reflexivity.
    + intros ts. simpl. rewrite Hc50, Hr. reflexivity.
    + intros ts fm pm. simpl. rewrite Hc2. reflexivity.
Qed.

Lemma tier_classification_rule_witness :
  determine_tier_history 3 (1 # 10) (Metrics 0 (35 # 10) (15 # 100) 50)
    true false = Fortress /\
  determine_tier_history 3 (1 # 10) (Metrics 0 2 (15 # 100) 50)
    false true = Strong /\
  determine_tier_history 3 (1 # 10) (Metrics 0 5 (15 # 100) 2)
    true true = Risky.
Proof.
  assert (Hcov : 2 < 3 <= 50) by (split; [reflexivity | discriminate]).
  assert (Hroic : 1 # 10 <= 15 # 100) by discriminate.
  destruct (proj2 (proj2 (proj2 (proj2 (proj2 (proj2
              (tier_classification_rule 3 (1 # 10))))))) Hcov Hroic)
    as (H1 & H2 & H3).
  exact (conj (H1 (Fin 0) false) (conj (H2 (Fin 0)) (H3 (Fin 0) true true))).
Defined.

(** C9.  A cache entry is fresh exactly when now - timestamp is strictly
    below the expiry: an entry stamped T is fresh at T + E - 1 and stale
    at T + E + 1 (and at T + E). *)
Theorem cache_freshness_strict (T E : Q) (z r c : num) :
  (forall now : Q, is_fresh (Metrics T z r c) now E = true <-> now - T < E) /\
  is_fresh (Metrics T z r c) (T + E - 1) E = true /\
  is_fresh (Metrics T z r c) (T + E + 1) E = false /\
  is_fresh (Metrics T z r c) (T + E) E = false.
Proof.
  assert (H : forall now : Q,
             is_fresh (Metrics T z r c) now E = true <-> now - T < E).
  { intros now. unfold is_fresh. simpl. unfold sub. simpl. apply ltb_Fin. }
  split; [exact H|]. split; [|split].
  - apply H. lra.
  - apply not_true_iff_false. intros Hc. apply H in Hc. lra.
  - apply not_true_iff_false. intros Hc. apply H in Hc. lra.
Qed.

Lemma bind_ok_inv {A B} (m : res A) (k : A -> res B) (b : B) :
  bind m k = ok b -> exists a, m = ok a /\ k a = ok b.
Proof.
  destruct m as [e|a]; simpl; [discriminate|]. intros H. exists a. auto.
Qed.

(** C10.  When the interest expense read from the income statement has
    absolute value 0, the coverage is set to 100 whatever EBIT is; with
    MIN_INTEREST_COVERAGE <= 100 the coverage gate then never fires, and
    the tier of the emitted row is decided by the ROIC, margin and
    Z-score conditions alone. *)
Theorem zero_interest_expense_coverage
    (FORTRESS_MARGIN_THRESHOLD MIN_INTEREST_COVERAGE MIN_ROIC : Q)
    (altman : statement -> statement -> num -> num) (current_time : Q)
    (survivor_df : list Filters.survivor_row) (ticker : string)
    (fin bs : statement) (fm pm : bool) (avg : option num)
    (int_exp : num) (m : metrics) (row : analysis_row)
    (Hmin : MIN_INTEREST_COVERAGE <= 100)
    (Hexp : get_item fin ["Interest Expense"; "Interest Expense Non Operating"]
            = ok int_exp)
    (Hzero : (abs int_exp =? 0)%num = true)
    (Hrow : analyze MIN_INTEREST_COVERAGE MIN_ROIC altman current_time
              survivor_df ticker fin bs fm pm avg = ok (m, row)) :
  (forall ebit, interest_coverage ebit int_exp = Fin 100) /\
  (int_cov m =~ 100)%num /\
  (Int_Cov row =~ 100)%num /\
  (int_cov m <? MIN_INTEREST_COVERAGE)%num = false /\
  Tier row =
    (if (roic m <? MIN_ROIC)%num then Risky
     else if fm && (z_score m >=? 299 # 100)%num then Fortress
     else if pm && (z_score m >=? 181 # 100)%num then Strong
     else Risky).
Proof.
  assert (Hcov : forall ebit, interest_coverage ebit int_exp = Fin 100).
  { intros ebit. unfold interest_coverage. rewrite Hzero. reflexivity. }
  split; [exact Hcov|].
  unfold analyze in Hrow.
  apply bind_ok_inv in Hrow as (ebit & _ & Hrow).
  rewrite Hexp in Hrow. simpl in Hrow.
  apply bind_ok_inv in Hrow as (total_assets & _ & Hrow).
  apply bind_ok_inv in Hrow as (curr_liab & _ & Hrow).
  destruct (find _ survivor_df) as [base|]; [|discriminate].
  rewrite Hcov in Hrow. injection Hrow as <- <-.
  assert (Hgate : (round2 (Fin 100) <? MIN_INTEREST_COVERAGE)%num = false).
  { apply ltb_Fin_false. vm_compute (inject_Z _ / _). lra. }
  split; [reflexivity|]. split; [reflexivity|]. split; [exact Hgate|].
  cbn [Tier]. unfold determine_tier_history.
  cbn [int_cov roic z_score]. unfold round2 at 1. unfold round2 in Hgate.
  rewrite Hgate. reflexivity.
Qed.

(* ===================================================================== *)
(** * Altman Z-Score *)
(* ===================================================================== *)

(** C5, as the specification states it, fails on its own example: the
    score of the example is not within 0.1 of 3.968. *)
Lemma altman_spec_example_is_not_3968 :
  ~ (exists z : Q,
        Setup.calculate_altman_z_yfinance Examples.bs_spec Examples.fin_spec
          2000 = Fin z /\
        Qabs (z - (3968 # 1000)) <= 1 # 10).
Proof.
  intros (z & Hz & Hclose).
  vm_compute in Hz. injection Hz as <-.
  apply Qabs_Qle_condition in Hclose. destruct Hclose as [Hlow _].
  vm_compute in Hlow. apply Hlow. reflexivity.
Qed.

(** C5, amended.  The score is 1.2 A + 1.4 B + 3.3 C + 0.6 D + 1.0 E over
    the values read from the two statements; it is 0 when total assets or
    total liabilities are 0 and when a lookup raises.  On the
    specification's example it is 3.775 (the specification's 3.968 is an
    arithmetic slip), and 0 when total assets are 0. *)
Theorem altman_z_score (bs fin : statement) (market_cap : Q) :
  let lookups := fun ta tl ca cl re ebit rev =>
    Setup.get_val bs ["Total Assets"] = ta /\
    Setup.get_val bs ["Total Liabilities Net Minority Interest";
                      "Total Liabilities"] = tl /\
    Setup.get_val bs ["Current Assets"; "Total Current Assets"] = ca /\
    Setup.get_val bs ["Current Liabilities"; "Total Current Liabilities"] = cl /\
    Setup.get_val bs ["Retained Earnings"] = re /\
    Setup.get_val fin ["EBIT"; "Operating Income"] = ebit /\
    Setup.get_val fin ["Total Revenue"] = rev in
  (forall ta tl ca cl re ebit rev : Q,
      lookups (ok (Fin ta)) (ok (Fin tl)) (ok (Fin ca)) (ok (Fin cl))
              (ok (Fin re)) (ok (Fin ebit)) (ok (Fin rev)) ->
      ~ ta == 0 -> ~ tl == 0 ->
      (Setup.calculate_altman_z_yfinance bs fin market_cap =~
       Fin ((12 # 10) * ((ca - cl) / ta) + (14 # 10) * (re / ta)
            + (33 # 10) * (ebit / ta) + (6 # 10) * (market_cap / tl)
            + 1 * (rev / ta)))%num) /\
  (forall ta tl ca cl re ebit rev : num,
      lookups (ok ta) (ok tl) (ok ca) (ok cl) (ok re) (ok ebit) (ok rev) ->
      (ta =? 0)%num = true \/ (tl =? 0)%num = true ->
      Setup.calculate_altman_z_yfinance bs fin market_cap = Fin 0) /\
  (forall ta tl ca cl re ebit rev,
      lookups ta tl ca cl re ebit rev ->
      (exists e, ta = raise e \/ tl = raise e \/ ca = raise e \/ cl = raise e \/
                 re = raise e \/ ebit = raise e \/ rev = raise e) ->
      Setup.calculate_altman_z_yfinance bs fin market_cap = Fin 0) /\
  (Setup.calculate_altman_z_yfinance Examples.bs_spec Examples.fin_spec 2000
     =~ Fin (3775 # 1000))%num /\
  Setup.calculate_altman_z_yfinance Examples.bs_no_assets Examples.fin_spec
    2000 = Fin 0.
Proof.
  intros lookups. subst lookups. cbv beta.
  split; [|split; [|split; [|split]]].
  - intros ta tl ca cl re ebit rev (H1 & H2 & H3 & H4 & H5 & H6 & H7) Hta Htl.
    unfold Setup.calculate_altman_z_yfinance.
    rewrite H1, H2, H3, H4, H5, H6, H7. cbn [bind ok].
    assert (Eta : (Fin ta =? 0)%num = false).
    { apply not_true_iff_false. rewrite eqb_Fin. exact Hta. }
    assert (Etl : (Fin tl =? 0)%num = false).
    { apply not_true_iff_false. rewrite eqb_Fin. exact Htl. }
    rewrite Eta, Etl. cbn [orb try_except ok].
    assert (Qta : Qeq_bool ta 0 = false).
    { apply not_true_iff_false. rewrite Qeq_bool_iff. exact Hta. }
    assert (Qtl : Qeq_bool tl 0 = false).
    { apply not_true_iff_false. rewrite Qeq_bool_iff. exact Htl. }
    unfold div, sub, add, mul, neg. rewrite Qta, Qtl. cbn [equiv].
    reflexivity.
  - intros ta tl ca cl re ebit rev (H1 & H2 & H3 & H4 & H5 & H6 & H7) Hz.
    unfold Setup.calculate_altman_z_yfinance.
    rewrite H1, H2, H3, H4, H5, H6, H7. cbn [bind ok].
    assert (E : (ta =? 0)%num || (tl =? 0)%num = true).
    { apply orb_true_iff. exact Hz. }
    rewrite E. reflexivity.
  - intros ta tl ca cl re ebit rev (H1 & H2 & H3 & H4 & H5 & H6 & H7) (e & He).
    unfold Setup.calculate_altman_z_yfinance.
    rewrite H1, H2, H3, H4, H5, H6, H7.
    destruct ta as [?|ta]; [reflexivity|].
    destruct tl as [?|tl]; [reflexivity|].
    destruct ca as [?|ca]; [reflexivity|].
    destruct cl as [?|cl]; [reflexivity|].
    destruct re as [?|re]; [reflexivity|].
    destruct ebit as [?|ebit]; [reflexivity|].
    destruct rev as [?|rev]; [reflexivity|].
    unfold raise in He. intuition discriminate.
  - vm_compute. reflexivity.
  - vm_compute. reflexivity.
Qed.

Lemma zero_interest_expense_coverage_witness :
  exists m row,
    analyze 3 (1 # 10) Setup.calculate_altman_z_yfinance 1000000
      [Examples.survivor "AAA"] "AAA" Examples.fin_no_debt Examples.bs_spec
      false true None = ok (m, row) /\
    (Int_Cov row =~ 100)%num /\
    (int_cov m <? 3)%num = false.
Proof.
  eexists _, _. split; [vm_compute; reflexivity|].
  assert (Hmin : 3 <= 100) by discriminate.
  pose proof (zero_interest_expense_coverage (5 # 100) 3 (1 # 10)
                Setup.calculate_altman_z_yfinance 1000000
                [Examples.survivor "AAA"] "AAA" Examples.fin_no_debt
                Examples.bs_spec false true None (Fin 0) _ _ Hmin
                eq_refl eq_refl eq_refl) as (_ & _ & Hrow & Hgate & _).
  split; [exact Hrow | exact Hgate].
Defined.

(* ===================================================================== *)
(** * Deep Analyzer: failures and the cache, the margin default *)
(* ===================================================================== *)

Section AnalyzerLoop.

Variables CACHE_EXPIRY_DAYS FORTRESS_MARGIN_THRESHOLD : Q.
Variables MIN_INTEREST_COVERAGE MIN_ROIC : Q.
Variable altman : statement -> statement -> num -> num.
Variable fetch_statements : string -> res (statement * statement).
Variable current_time : Q.
Variable survivor_df : list Filters.survivor_row.

Let step :=
  analyze_ticker CACHE_EXPIRY_DAYS FORTRESS_MARGIN_THRESHOLD
    MIN_INTEREST_COVERAGE MIN_ROIC altman fetch_statements current_time
    survivor_df.

(** A fresh entry with [roic == -999] makes the analyzer skip the ticker:
    no request, no row, no change of the cache. *)
Lemma fresh_failure_entry_skips (st : loop_state) (ticker : string)
    (e : metrics) :
  cache st !! ticker = Some e ->
  is_fresh e current_time (expiry_seconds CACHE_EXPIRY_DAYS) = true ->
  roic e = Fin (- (999 # 1)) ->
  step st ticker = st.
Proof.
  intros Hget Hfresh Hroic. unfold step, analyze_ticker, skip_cached.
  rewrite Hget, Hfresh, Hroic. reflexivity.
Qed.

(** A ticker whose statements cannot be fetched, or come back empty,
    leaves the cache and the output as they were. *)
Lemma failed_fetch_keeps_cache (st : loop_state) (ticker : string) :
  (exists e, fetch_statements ticker = raise e) \/
  (exists fin bs, fetch_statements ticker = ok (fin, bs) /\
                  empty fin || empty bs = true) ->
  cache (step st ticker) = cache st /\
  final_data (step st ticker) = final_data st.
Proof.
  intros H. unfold step, analyze_ticker.
  destruct (skip_cached _ _ _); [split; reflexivity|].
  destruct H as [[e ->] | (fin & bs & -> & Hempty)].
  - split; reflexivity.
  - unfold ok. cbn iota beta. rewrite Hempty. split; reflexivity.
Qed.

(** When the margin computation raises or finds no valid ratio, both
    flags are false and [avg_margin] keeps the binding it had. *)
Lemma margin_flags_failure (fin : statement) (avg : option num) :
  (exists e, yearly_margins fin = raise e) \/ yearly_margins fin = ok [] ->
  margin_flags FORTRESS_MARGIN_THRESHOLD fin avg = (false, false, avg).
Proof.
  intros [[e H] | H]; unfold margin_flags; rewrite H; reflexivity.
Qed.

End AnalyzerLoop.

(** C2.  A ticker whose fetch fails gets no failure entry: the cache
    saved by the run has no entry for it, and a run one minute later
    requests its statements again. *)
Theorem failed_fetch_is_not_cached :
  let '(out1, file1, requested1) :=
    Examples.run Examples.statements_of 1000000 ["XXX"] None in
  Examples.statements_of "XXX" = raise ProviderError /\
  out1 = [] /\ requested1 = ["XXX"] /\
  Setup.load_cache file1 !! "XXX" = None /\
  Examples.run Examples.statements_of (1000000 + 60) ["XXX"] file1
  = ([], file1, ["XXX"]) /\
  Examples.run Examples.no_statements 1000000 ["XXX"] None
  = ([], Some ∅, ["XXX"]).
Proof. vm_compute. repeat split; reflexivity. Qed.

(** C3.  The margin computation of "BBB" raises (no "Total Revenue"
    line).  Processed after "AAA", whose average margin is 20%, the row
    of "BBB" reports 20 as its "Avg Margin (4Y)", not 0; processed alone
    it reports 0. *)
Theorem stale_avg_margin_is_reported :
  yearly_margins Examples.fin_no_revenue = raise KeyError /\
  (exists a b,
      map (fun r => (Filters.Ticker (base_row r), Avg_Margin_4Y r))
        (Examples.run Examples.statements_of 1000000 ["AAA"; "BBB"] None).1.1
      = [("AAA", a); ("BBB", b)] /\
      (b =~ 20)%num /\ ~ (b =~ 0)%num) /\
  (exists b,
      map (fun r => (Filters.Ticker (base_row r), Avg_Margin_4Y r))
        (Examples.run Examples.statements_of 1000000 ["BBB"] None).1.1
      = [("BBB", b)] /\
      (b =~ 0)%num).
Proof.
  split; [reflexivity|]. split.
  - eexists _, _. split; [vm_compute; reflexivity|].
    split; [reflexivity | discriminate].
  - eexists. split; [vm_compute; reflexivity | reflexivity].
Qed.

(* ===================================================================== *)
(** * Bulk Screener *)
(* ===================================================================== *)

Section ScreenerFacts.

Import Filters FilterSpec.

Lemma py_lt_false (v : pyval) (q : Q) :
  py_lt v q = ok false <-> at_least v q.
Proof.
  unfold at_least. destruct v as [|x|s|d]; simpl.
  1,3,4: split; [discriminate | intros (x & Hx & _); discriminate].
  split.
  - intros H. injection H as H. apply ltb_Fin_false in H. eauto.
  - intros (y & Hy & Hle). injection Hy as <-. unfold ok. f_equal.
    apply ltb_Fin_false. exact Hle.
Qed.

Lemma py_le_zero_false (v : pyval) :
  py_le v 0 = ok false <-> exists x, v = VNum x /\ 0 < x.
Proof.
  destruct v as [|x|s|d]; simpl.
  1,3,4: split; [discriminate | intros (x & Hx & _); discriminate].
  split.
  - intros H. injection H as H. apply leb_Fin_false in H. eauto.
  - intros (y & Hy & Hlt). injection Hy as <-. unfold ok. f_equal.
    apply leb_Fin_false. exact Hlt.
Qed.

Lemma pe_too_high_false (MAX_PE_RATIO : Q) (v : pyval) :
  pe_too_high MAX_PE_RATIO v = ok false <->
  v = VNone \/ exists x, v = VNum x /\ x <= MAX_PE_RATIO.
Proof.
  unfold pe_too_high. destruct v as [|x|s|d]; simpl.
  - split; [auto | reflexivity].
  - split.
    + intros H. injection H as H. right. exists x. split; [reflexivity|].
      unfold gtb in H. apply ltb_Fin_false in H. exact H.
    + intros [H | (y & Hy & Hle)]; [discriminate|]. injection Hy as <-.
      unfold ok. f_equal. unfold gtb. apply ltb_Fin_false. exact Hle.
  - split; [discriminate | intros [H | (x & Hx & _)]; discriminate].
  - split; [discriminate | intros [H | (x & Hx & _)]; discriminate].
Qed.

Lemma py_any_in_false (xs : list string) (v : pyval) :
  py_any_in xs v = ok false <-> forall x, x ∈ xs -> py_in x v = ok false.
Proof.
  induction xs as [|x xs IH]; simpl.
  - split; [intros _ x Hx; inversion Hx | reflexivity].
  - destruct (py_in x v) as [e|[|]] eqn:E; simpl.
    + split; [discriminate|]. intros H.
      specialize (H x (list_elem_of_here _ _)).
      rewrite E in H. discriminate.
    + split; [discriminate|]. intros H.
      specialize (H x (list_elem_of_here _ _)).
      rewrite E in H. discriminate.
    + rewrite IH. split.
      * intros H y Hy. apply elem_of_cons in Hy as [-> | Hy]; auto.
      * intros H y Hy. apply H. apply list_elem_of_further. exact Hy.
Qed.

Variables MIN_PRICE MIN_VOLUME MIN_CAP MIN_CURRENT_RATIO : Q.
Variable EXCLUDED_SECTORS : list string.
Variable MAX_PE_RATIO : Q.

Let filters :=
  apply_filters MIN_PRICE MIN_VOLUME MIN_CAP MIN_CURRENT_RATIO
    EXCLUDED_SECTORS MAX_PE_RATIO.
Let holds :=
  all_filters_hold MIN_PRICE MIN_VOLUME MIN_CAP MIN_CURRENT_RATIO
    EXCLUDED_SECTORS MAX_PE_RATIO.

Ltac check_step H :=
  match type of H with
  | bind ?m _ = _ =>
      let E := fresh "E" in
      destruct m as [?|[|]] eqn:E; cbn [bind] in H; try discriminate
  end.

(** A row comes out of the filters exactly when all of them hold, and it
    carries the symbol. *)
Lemma apply_filters_some (symbol : string) (b : bundle) :
  (exists r, filters symbol b = ok (Some r)) <-> holds b.
Proof.
  unfold filters, holds, apply_filters, all_filters_hold. split.
  - intros (r & H).
    do 7 check_step H.
    apply (proj1 (pe_too_high_false _ _)) in E.
    apply (proj1 (py_lt_false _ _)) in E0, E1, E2, E4.
    pose proof (proj1 (py_any_in_false _ _) E3) as Hsec.
    apply (proj1 (py_le_zero_false _)) in E5.
    repeat split; assumption.
  - intros (Hpe & Hprice & Hcap & Hvol & Hsec & Hcr & Hom).
    apply (proj2 (pe_too_high_false _ _)) in Hpe.
    pose proof Hcap as Hcap'.
    apply (proj2 (py_lt_false _ _)) in Hprice, Hcap', Hvol, Hcr.
    apply (proj2 (py_any_in_false _ _)) in Hsec.
    pose proof Hom as Hom'. apply (proj2 (py_le_zero_false _)) in Hom'.
    rewrite Hpe, Hprice, Hcap', Hvol, Hsec, Hcr, Hom'. cbn [bind ok].
    destruct Hom as (m & -> & _). destruct Hcap as (k & -> & _).
    cbn [as_num bind ok].
    destruct (py_truthy (pe b)) eqn:T.
    + destruct (pe b) as [|x|s|d]; try discriminate; cbn; eauto.
    + cbn. eauto.
Qed.

Lemma apply_filters_ticker (symbol : string) (b : bundle) (r : survivor_row) :
  filters symbol b = ok (Some r) -> Ticker r = symbol.
Proof.
  unfold filters, apply_filters. intros H.
  do 7 check_step H.
  destruct (as_num (op_margins b)); cbn [bind] in H; [discriminate|].
  destruct (if py_truthy (pe b) then _ else _); cbn [bind] in H;
    [discriminate|].
  destruct (as_num (cap b)); cbn [bind] in H; [discriminate|].
  injection H as <-. reflexivity.
Qed.

End ScreenerFacts.

Section ScreenerLoop.

Import Filters FilterSpec.




Variables MIN_PRICE MIN_VOLUME MIN_CAP MIN_CURRENT_RATIO : Q.
Variable EXCLUDED_SECTORS : list string.
Variable MAX_PE_RATIO : Q.
Variable get_modules : list string -> res (list (string * pyval)).

Let screen :=
  screen_symbol MIN_PRICE MIN_VOLUME MIN_CAP MIN_CURRENT_RATIO
    EXCLUDED_SECTORS MAX_PE_RATIO.
Let holds :=
  all_filters_hold MIN_PRICE MIN_VOLUME MIN_CAP MIN_CURRENT_RATIO
    EXCLUDED_SECTORS MAX_PE_RATIO.
Let survivors :=
  get_initial_survivors MIN_PRICE MIN_VOLUME MIN_CAP MIN_CURRENT_RATIO
    EXCLUDED_SECTORS MAX_PE_RATIO get_modules.


Lemma screen_symbol_ticker (symbol : string) (data : pyval) (r : survivor_row) :
  screen symbol data = Some r -> Ticker r = symbol.
Proof.
  unfold screen, screen_symbol. intros H.
  destruct data as [|x|s|d]; try discriminate;
    destruct (extract _) as [e|b]; try discriminate;
    cbn [bind try_except] in H;
    destruct (apply_filters _ _ _ _ _ _ symbol b) as [e|[r'|]] eqn:E;
    try discriminate; injection H as <-;
    apply (apply_filters_ticker _ _ _ _ _ _ _ _ _ E).
Qed.

(** The rows of the output are the rows of the screened symbols of the
    answered chunks. *)
Lemma survivors_elem (tickers : list string) (r : survivor_row) :
  r ∈ survivors tickers <->
  exists chunk items d,
    chunk ∈ chunks tickers /\ get_modules chunk = ok items /\
    (Ticker r, d) ∈ items /\ screen (Ticker r) d = Some r.
Proof.
  unfold survivors, get_initial_survivors.
  rewrite list_elem_of_In, in_concat. split.
  - intros (rows & Hrows & Hr).
    apply in_map_iff in Hrows as (chunk & <- & Hchunk).
    unfold screen_chunk in Hr.
    destruct (get_modules chunk) as [e|items] eqn:E; [inversion Hr|].
    apply list_elem_of_In, list_elem_of_omap in Hr as ([s d] & Hin & Hs).
    pose proof (screen_symbol_ticker _ _ _ Hs) as <-.
    exists chunk, items, d. apply list_elem_of_In in Hchunk. auto.
  - intros (chunk & items & d & Hchunk & E & Hin & Hs).
    exists (screen_chunk MIN_PRICE MIN_VOLUME MIN_CAP MIN_CURRENT_RATIO
              EXCLUDED_SECTORS MAX_PE_RATIO get_modules chunk). split.
    + apply in_map, list_elem_of_In, Hchunk.
    + unfold screen_chunk. rewrite E.
      apply list_elem_of_In, list_elem_of_omap. exists (Ticker r, d). auto.
Qed.

End ScreenerLoop.

Section QuoteFields.

Import Filters QuoteSpec.








Variables MIN_PRICE MIN_VOLUME MIN_CAP MIN_CURRENT_RATIO : Q.
Variable EXCLUDED_SECTORS : list string.
Variable MAX_PE_RATIO : Q.


End QuoteFields.



(** C6.  The 10-day volume read as a fallback and the sector are not
    normalised: a bundle whose two volume fields are null reaches the
    volume comparison with a null volume, and a bundle whose sector is
    null reaches the sector test with a null sector.  Both comparisons
    raise [TypeError] and the ticker is dropped by the handler, while the
    same bundle without the nulls passes. *)
Theorem null_fields_reach_the_filters :
  (exists b,
      Filters.extract Examples.quote_null_volume = ok b /\
      Filters.vol b = VNone /\
      py_lt (Filters.vol b) 100000 = raise TypeError /\
      Examples.filters "AAA" b = raise TypeError) /\
  (exists b,
      Filters.extract Examples.quote_null_sector = ok b /\
      Filters.sector b = VNone /\
      py_any_in ["Financial"] (Filters.sector b) = raise TypeError /\
      Examples.filters "AAA" b = raise TypeError) /\
  Examples.screen "AAA" Examples.quote_null_volume = None /\
  Examples.screen "AAA" Examples.quote_null_sector = None /\
  (exists r, Examples.screen "AAA" Examples.quote_ok = Some r).
Proof.
  split; [|split; [|split; [|split]]].
  - eexists. split; [vm_compute; reflexivity|].
    repeat split; vm_compute; reflexivity.
  - eexists. split; [vm_compute; reflexivity|].
    repeat split; vm_compute; reflexivity.
  - vm_compute. reflexivity.
  - vm_compute. reflexivity.
  - eexists. vm_compute. reflexivity.
Qed.

(* ===================================================================== *)
(** * Trend Filter *)
(* ===================================================================== *)

Section TrendFacts.

Import Setup.

Lemma insert_sorted_perm (r : trow) (l : list trow) :
  insert_sorted r l ≡ₚ r :: l.
Proof.
  induction l as [|r' l IH]; simpl; [reflexivity|].
  destruct (key_le _ _); [reflexivity|].
  rewrite IH. apply Permutation_swap.
Qed.

(** Sorting keeps the rows. *)
Lemma sort_values_perm (l : list trow) : sort_values l ≡ₚ l.
Proof.
  induction l as [|r l IH]; simpl; [reflexivity|].
  rewrite insert_sorted_perm, IH. reflexivity.
Qed.





Lemma trend_row_ticker (df_input : list trow) (data : price_frame)
    (n : nat) (t : string) (r : trow) :
  trend_row df_input data n t = ok (Some r) -> Ticker r = t.
Proof.
  unfold trend_row. intros H.
  apply bind_ok_inv in H as ([h|] & _ & H); [|discriminate].
  destruct (nrows h <? 200)%nat; [discriminate|].
  apply bind_ok_inv in H as (close & _ & H).
  apply bind_ok_inv in H as (sma & _ & H).
  apply bind_ok_inv in H as (cp & _ & H).
  destruct (cp >? sma)%num; [|discriminate].
  destruct (find _ df_input) as [base|] eqn:E; [|discriminate].
  injection H as <-. cbn [Ticker].
  apply find_some in E as [_ E]. apply bool_decide_eq_true in E. exact E.
Qed.

Variable download : list string -> res price_frame.

(** The rows of the loop are the rows of the tickers whose processing
    returns one. *)
Lemma trend_data_elem (df_input : list trow) (data : price_frame) (r : trow) :
  r ∈ trend_data df_input data <->
  exists u, u ∈ map Ticker df_input /\
            trend_row df_input data (length df_input) u = ok (Some r).
Proof.
  unfold trend_data. rewrite list_elem_of_omap, length_map. split.
  - intros (u & Hu & H). exists u. split; [exact Hu|].
    destruct (trend_row df_input data (length df_input) u) as [e|o];
      [discriminate|]. cbn in H. rewrite H. reflexivity.
  - intros (u & Hu & H). exists u. split; [exact Hu|]. rewrite H. reflexivity.
Qed.

Lemma apply_trend_alignment_elem (df_input : list trow) (data : price_frame)
    (r : trow) :
  download (map Ticker df_input) = ok data ->
  r ∈ apply_trend_alignment download df_input <->
  exists u, u ∈ map Ticker df_input /\
            trend_row df_input data (length df_input) u = ok (Some r).
Proof.
  intros Hd. unfold apply_trend_alignment.
  destruct df_input as [|r0 df].
  - split; [intros H; inversion H | intros (u & Hu & _); inversion Hu].
  - cbv beta iota zeta. unfold ok in Hd. rewrite Hd.
    rewrite sort_values_perm. apply trend_data_elem.
Qed.

(** A ticker of the input is in the output exactly when its own
    processing returns a row. *)
Lemma survives_iff_row (df_input : list trow) (data : price_frame)
    (t : string) :
  download (map Ticker df_input) = ok data ->
  t ∈ map Ticker (apply_trend_alignment download df_input) <->
  t ∈ map Ticker df_input /\
  exists r, trend_row df_input data (length df_input) t = ok (Some r).
Proof.
  intros Hd. rewrite list_elem_of_fmap. split.
  - intros (r & -> & Hr).
    apply (apply_trend_alignment_elem _ data) in Hr as (u & Hu & H);
      [|exact Hd].
    pose proof (trend_row_ticker _ _ _ _ _ H) as ->. eauto.
  - intros (Ht & r & H). exists r. split.
    + symmetry. eapply trend_row_ticker. exact H.
    + apply (apply_trend_alignment_elem _ data); eauto.
Qed.

End TrendFacts.

Section TrendTheorems.

Import Setup.

Variable download : list string -> res price_frame.




(** C8.  When the download of the price history raises, the input table
    is returned as it is.  When it succeeds, a ticker whose processing
    raises has no row in the output, and the output holds exactly the rows
    that the processing of the single tickers returns. *)
Theorem trend_filter_failures (df_input : list trow) :
  (forall e, download (map Ticker df_input) = raise e ->
             apply_trend_alignment download df_input = df_input) /\
  (forall data,
      download (map Ticker df_input) = ok data ->
      (forall t e,
          trend_row df_input data (length df_input) t = raise e ->
          t ∉ map Ticker (apply_trend_alignment download df_input)) /\
      (forall r,
          r ∈ apply_trend_alignment download df_input <->
          exists u, u ∈ map Ticker df_input /\
                    trend_row df_input data (length df_input) u = ok (Some r))).
Proof.
  split.
  - intros e He. unfold apply_trend_alignment.
    destruct df_input; [reflexivity|].
    cbv beta iota zeta. unfold raise in He. rewrite He. reflexivity.
  - intros data Hd. split.
    + intros t e He Hs.
      apply (survives_iff_row download df_input data t Hd) in Hs
        as (_ & r & Hr).
      rewrite He in Hr. discriminate.
    + intros r. apply apply_trend_alignment_elem. exact Hd.
Qed.

End TrendTheorems.









Section TrendHistory.

Import Setup.

Variable download : list string -> res price_frame.



End TrendHistory.


(** In the same download "SHORT" has 100 observations and "GAP" has no
    price in one of its last 200 rows: both are excluded. *)
Example padded_history_example :
  length (HistorySpec.observations MoreExamples.short_closes) = 100%nat /\
  length (HistorySpec.observations MoreExamples.gap_closes) = 249%nat /\
  HistorySpec.sma_200 MoreExamples.gap_closes = None /\
  map Ticker
    (Setup.apply_trend_alignment MoreExamples.download_padded
       MoreExamples.history_input) = ["LEAD"].
Proof. repeat split; vm_compute; reflexivity. Qed.


(** An instance of C8: "AAA" has no "Close" column, its processing
    raises, and the output is the row of "BBB" alone; when the download
    fails the two rows come back. *)
Example single_ticker_error_example :
  Setup.trend_row Examples.trend_input Examples.prices 2 "AAA"
  = raise KeyError /\
  map Ticker (Setup.apply_trend_alignment Examples.download_prices
                Examples.trend_input) = ["BBB"] /\
  Setup.apply_trend_alignment Examples.download_fails Examples.trend_input
  = Examples.trend_input.
Proof. repeat split; vm_compute; reflexivity. Qed.

(* ===================================================================== *)
(** * Universe Source: the ticker list *)
(* ===================================================================== *)

Section UniverseFacts.

Import Fetch.

Lemma replace_dollar_length (x : string) :
  String.length (replace_dollar x) = String.length x.
Proof. induction x as [|c x IH]; simpl; congruence. Qed.

Lemma replace_dollar_clean (x : string) :
  ~ In "$"%char (String.list_ascii_of_string (replace_dollar x)).
Proof.
  induction x as [|c x IH]; simpl; [tauto|].
  intros [H|H]; [|exact (IH H)].
  destruct (Ascii.eqb c "$") eqn:E; [discriminate|].
  apply Ascii.eqb_neq in E. congruence.
Qed.

(** X18.  The universe is the list of the symbols, with every "$" turned into
    "-", of the listings that are neither test issues nor ETFs and whose
    symbol is shorter than 5 characters; so every ticker in it is shorter
    than 5 characters and free of "$".  A failed download or parse gives
    the empty list. *)
Theorem universe_symbols (nasdaq : res (list listing)) :
  (forall e, nasdaq = raise e -> get_combined_universe nasdaq = []) /\
  (forall df_us s,
      nasdaq = ok df_us ->
      (In s (get_combined_universe nasdaq) <->
       exists r, In r df_us /\ Test_Issue r = "N" /\ ETF r = "N" /\
                 (String.length (Symbol r) < 5)%nat /\
                 s = replace_dollar (Symbol r)) /\
      (In s (get_combined_universe nasdaq) ->
       (String.length s < 5)%nat /\
       ~ In "$"%char (String.list_ascii_of_string s))).
Proof.
  split.
  - intros e ->. reflexivity.
  - intros df_us s ->.
    assert (Hiff : In s (get_combined_universe (ok df_us)) <->
                   exists r, In r df_us /\ Test_Issue r = "N" /\ ETF r = "N" /\
                             (String.length (Symbol r) < 5)%nat /\
                             s = replace_dollar (Symbol r)).
    { unfold get_combined_universe, ok. cbv beta iota zeta.
      rewrite app_nil_l. split.
      - intros Hs.
        apply in_map_iff in Hs as (x & <- & Hx).
        apply filter_In in Hx as (Hx & Hlen).
        apply in_map_iff in Hx as (r & <- & Hr).
        apply filter_In in Hr as (Hr & Hflags).
        apply andb_true_iff in Hflags as (Ht & He).
        apply String.eqb_eq in Ht, He. apply Nat.ltb_lt in Hlen.
        exists r. auto.
      - intros (r & Hr & Ht & He & Hlen & ->).
        apply in_map, filter_In. split; [|apply Nat.ltb_lt; exact Hlen].
        apply in_map, filter_In. split; [exact Hr|].
        rewrite Ht, He. reflexivity. }
    split; [exact Hiff|].
    intros Hs. apply Hiff in Hs as (r & _ & _ & _ & Hlen & ->).
    split; [rewrite replace_dollar_length; exact Hlen|].
    apply replace_dollar_clean.
Qed.

End UniverseFacts.

(* ===================================================================== *)
(** * Bulk Screener: batches and output rows *)
(* ===================================================================== *)

Section ScreenerRows.

Import Filters FilterSpec.

Lemma chunks_from_sizes (fuel n : nat) (l chunk : list string) :
  (0 < n)%nat -> In chunk (chunks_from fuel n l) ->
  (0 < length chunk <= n)%nat.
Proof.
  intros Hn. revert l. induction fuel as [|fuel IH]; intros l Hin.
  - destruct l; inversion Hin.
  - destruct l as [|a l]; [inversion Hin|].
    cbn [chunks_from] in Hin. destruct Hin as [<- | Hin].
    + rewrite length_take. simpl length. lia.
    + exact (IH _ Hin).
Qed.

(** X1.  Every batch handed to the quote provider holds at least one and
    at most 500 tickers. *)
Theorem batches_are_bounded (tickers chunk : list string) :
  chunk ∈ chunks tickers -> (0 < length chunk <= 500)%nat.
Proof.
  intros H. apply list_elem_of_In in H.
  apply (chunks_from_sizes (length tickers) chunk_size tickers chunk);
    [unfold chunk_size; lia | exact H].
Qed.

Lemma batches_are_bounded_witness :
  (0 < length ["AAA"; "BBB"] <= 500)%nat.
Proof.
  apply (batches_are_bounded ["AAA"; "BBB"] ["AAA"; "BBB"]).
  vm_compute. apply list_elem_of_here.
Defined.

Lemma rint_nonneg (q : Q) : 0 <= q -> (0 <= rint q)%Z.
Proof.
  intros H. unfold rint.
  assert (Hf : (0 <= Qfloor q)%Z).
  { change 0%Z with (Qfloor 0). apply Qfloor_resp_le. exact H. }
  destruct (Qcompare _ _); [destruct (Z.even _)| |]; lia.
Qed.

Lemma round2_nonneg (q : Q) :
  0 <= q -> exists p, round2 (Fin q) = Fin p /\ 0 <= p.
Proof.
  intros H. eexists. split; [reflexivity|].
  apply Qmult_le_0_compat.
  - change 0 with (inject_Z 0). rewrite <- Zle_Qle. apply rint_nonneg.
    apply Qmult_le_0_compat; [exact H | discriminate].
  - discriminate.
Qed.

Variables MIN_PRICE MIN_VOLUME MIN_CAP MIN_CURRENT_RATIO : Q.
Variable EXCLUDED_SECTORS : list string.
Variable MAX_PE_RATIO : Q.

Let filters :=
  apply_filters MIN_PRICE MIN_VOLUME MIN_CAP MIN_CURRENT_RATIO
    EXCLUDED_SECTORS MAX_PE_RATIO.

Ltac filter_step H :=
  match type of H with
  | bind ?m _ = _ =>
      let E := fresh "E" in
      destruct m as [?|[|]] eqn:E; cbn [bind] in H; try discriminate
  end.

(** The columns of a row that comes out of the filters. *)
Lemma apply_filters_row (symbol : string) (b : bundle) (r : survivor_row) :
  filters symbol b = ok (Some r) ->
  exists m k,
    op_margins b = VNum m /\ cap b = VNum k /\
    Sector r = sector b /\ Price r = price b /\
    Curr_Ratio r = curr_ratio b /\
    Op_Margin_pct r = round2 (Fin (m * 100)) /\
    Mkt_Cap_B r = round2 (Fin (k / 1000000000)) /\
    (PE r = Fin 0 \/
     exists x, pe b = VNum x /\ x <= MAX_PE_RATIO /\ PE r = round2 (Fin x)).
Proof.
  unfold filters, apply_filters. intros H.
  do 7 filter_step H.
  pose proof (proj1 (py_lt_false _ _) E1) as (k & Hk & _).
  pose proof (proj1 (py_le_zero_false _) E5) as (m & Hm & _).
  pose proof (proj1 (pe_too_high_false _ _) E) as Hpe.
  rewrite Hm, Hk in H. cbn [as_num bind ok] in H.
  exists m, k.
  destruct (py_truthy (pe b)) eqn:T.
  - destruct Hpe as [Hpe | (x & Hpe & Hle)]; rewrite Hpe in H, T;
      [discriminate|].
    cbn [as_num bind ok] in H. injection H as <-.
    split; [exact Hm|]. split; [exact Hk|]. do 5 (split; [reflexivity|]).
    right. exists x. auto.
  - cbn [bind ok] in H. injection H as <-.
    split; [exact Hm|]. split; [exact Hk|]. do 5 (split; [reflexivity|]).
    left. reflexivity.
Qed.

Let screen :=
  screen_symbol MIN_PRICE MIN_VOLUME MIN_CAP MIN_CURRENT_RATIO
    EXCLUDED_SECTORS MAX_PE_RATIO.

Lemma screen_symbol_inv (symbol : string) (data : pyval) (r : survivor_row) :
  screen symbol data = Some r ->
  exists b, extract data = ok b /\ filters symbol b = ok (Some r).
Proof.
  unfold screen, filters, screen_symbol. intros H.
  destruct data as [|x|s|d]; try discriminate;
    destruct (extract _) as [e|b]; try discriminate;
    cbn [bind try_except] in H;
    destruct (apply_filters _ _ _ _ _ _ symbol b) as [e|[r'|]] eqn:E;
    try discriminate; injection H as <-; exists b; auto.
Qed.

(** The operating margin read from a bundle. *)
Lemma extract_op_margins (data : pyval) (b : bundle) :
  extract data = ok b ->
  exists fin_data v,
    py_get data "financialData" empty_dict = ok fin_data /\
    py_get fin_data "operatingMargins" (VNum 0) = ok v /\
    op_margins b = none_to_zero v.
Proof.
  unfold extract. intros H.
  apply bind_ok_inv in H as (price_mod & _ & H).
  apply bind_ok_inv in H as (price & _ & H).
  apply bind_ok_inv in H as (detail & _ & H).
  apply bind_ok_inv in H as (primary & _ & H).
  apply bind_ok_inv in H as (v & _ & H).
  apply bind_ok_inv in H as (price_mod' & _ & H).
  apply bind_ok_inv in H as (cap & _ & H).
  apply bind_ok_inv in H as (profile & _ & H).
  apply bind_ok_inv in H as (sector & _ & H).
  apply bind_ok_inv in H as (fin_data & Hfd & H).
  apply bind_ok_inv in H as (curr_ratio & _ & H).
  apply bind_ok_inv in H as (op & Hop & H).
  apply bind_ok_inv in H as (detail' & _ & H).
  apply bind_ok_inv in H as (pe & _ & H).
  injection H as <-. exists fin_data, op. auto.
Qed.

(** X2.  Every row of the screener's output meets the thresholds on its
    own columns: the price and the current ratio are numbers at least
    their minimum, no excluded sector is contained in the sector, the
    "Op Margin %" is a number and not negative, the "Mkt Cap (B)" is the
    rounding of a market cap of at least MIN_CAP in billions, and the
    "P/E" is 0 or the rounding of a P/E of at most MAX_PE_RATIO. *)
Theorem survivor_rows_meet_thresholds
    (get_modules : list string -> res (list (string * pyval)))
    (tickers : list string) (r : survivor_row) :
  r ∈ get_initial_survivors MIN_PRICE MIN_VOLUME MIN_CAP MIN_CURRENT_RATIO
        EXCLUDED_SECTORS MAX_PE_RATIO get_modules tickers ->
  (exists x, Price r = VNum x /\ MIN_PRICE <= x) /\
  (exists x, Curr_Ratio r = VNum x /\ MIN_CURRENT_RATIO <= x) /\
  (forall x, x ∈ EXCLUDED_SECTORS -> py_in x (Sector r) = ok false) /\
  (exists p, Op_Margin_pct r = Fin p /\ 0 <= p) /\
  (exists k, Mkt_Cap_B r = round2 (Fin (k / 1000000000)) /\ MIN_CAP <= k) /\
  (PE r = Fin 0 \/
   exists x, x <= MAX_PE_RATIO /\ PE r = round2 (Fin x)).
Proof.
  intros Hr.
  apply survivors_elem in Hr as (chunk & items & d & _ & _ & _ & Hs).
  apply screen_symbol_inv in Hs as (b & _ & Hf).
  pose proof (proj1 (apply_filters_some _ _ _ _ _ _ _ _) (ex_intro _ r Hf))
    as (_ & Hprice & Hcap & _ & Hsec & Hcr & Hom).
  apply apply_filters_row in Hf
    as (m & k & Hm & Hk & -> & -> & -> & -> & -> & Hpe).
  split; [exact Hprice|]. split; [exact Hcr|]. split; [exact Hsec|].
  split; [|split].
  - destruct Hom as (m' & Hm' & Hpos). rewrite Hm in Hm'.
    injection Hm' as <-. apply round2_nonneg.
    apply Qmult_le_0_compat; [apply Qlt_le_weak; exact Hpos | discriminate].
  - destruct Hcap as (k' & Hk' & Hle). rewrite Hk in Hk'.
    injection Hk' as <-. exists k. auto.
  - destruct Hpe as [Hpe | (x & _ & Hle & Hpe)]; [left; exact Hpe|].
    right. exists x. auto.
Qed.

(** X3.  A bundle whose operating margin is absent, null, or a number
    that is not positive is dropped under every configuration. *)
Theorem no_margin_no_row (symbol : string) (data fin_data v : pyval) :
  py_get data "financialData" empty_dict = ok fin_data ->
  py_get fin_data "operatingMargins" (VNum 0) = ok v ->
  v = VNone \/ (exists x, v = VNum x /\ x <= 0) ->
  screen symbol data = None.
Proof.
  intros Hfd Hv Hbad.
  destruct (screen symbol data) as [r|] eqn:E; [|reflexivity]. exfalso.
  apply screen_symbol_inv in E as (b & Hb & Hf).
  pose proof (proj1 (apply_filters_some _ _ _ _ _ _ _ _) (ex_intro _ r Hf))
    as (_ & _ & _ & _ & _ & _ & (m & Hm & Hpos)).
  apply extract_op_margins in Hb as (fd' & v' & Hfd' & Hv' & Hop).
  rewrite Hfd in Hfd'. injection Hfd' as <-.
  rewrite Hv in Hv'. injection Hv' as <-.
  rewrite Hop in Hm.
  destruct Hbad as [-> | (x & -> & Hle)]; injection Hm as <-; lra.
Qed.

End ScreenerRows.

Lemma survivor_rows_meet_thresholds_witness :
  Forall (fun r => exists x, Filters.Price r = VNum x /\ 5 <= x)
    (Filters.get_initial_survivors 5 100000 1000000000 1 ["Financial"] 25
       Examples.quotes_of ["AAA"; "BBB"]).
Proof.
  apply Forall_forall. intros r Hr.
  exact (proj1 (survivor_rows_meet_thresholds 5 100000 1000000000 1
                  ["Financial"] 25 Examples.quotes_of ["AAA"; "BBB"] r Hr)).
Defined.

Lemma no_margin_no_row_witness :
  Filters.screen_symbol 5 100000 1000000000 1 ["Financial"] 25 "AAA"
    (VDict ∅) = None.
Proof.
  apply (no_margin_no_row 5 100000 1000000000 1 ["Financial"] 25 "AAA"
           (VDict ∅) Filters.empty_dict (VNum 0));
    [reflexivity | reflexivity |].
  right. exists 0. split; [reflexivity | discriminate].
Defined.

(* ===================================================================== *)
(** * Statement lookups and the Altman Z-Score: edge behaviour *)
(* ===================================================================== *)

Section LookupFacts.

Lemma in_index_true (k : string) (df : statement) (row : list num) :
  items df !! k = Some row -> in_index k df = true.
Proof.
  intros H. unfold in_index. apply bool_decide_eq_true. rewrite H. eauto.
Qed.

Lemma in_index_false (k : string) (df : statement) :
  items df !! k = None -> in_index k df = false.
Proof.
  intros H. unfold in_index. apply bool_decide_eq_false. rewrite H.
  intros [x Hx]. discriminate.
Qed.

(** X4.  The lookup helper takes the most recent value of the first
    candidate line that the table has (an empty row raises
    [IndexError]) and gives 0 when the table has none of them; the
    analyzer's [get_item] is the same function. *)
Theorem lookup_first_present (df : statement) :
  (forall pre k post row,
      (forall k', In k' pre -> items df !! k' = None) ->
      items df !! k = Some row ->
      Setup.get_val df (pre ++ k :: post) = iloc0 row) /\
  (forall keys,
      (forall k, In k keys -> items df !! k = None) ->
      Setup.get_val df keys = ok (Fin 0)) /\
  (forall keys, FinancialAnalysis.get_item df keys = Setup.get_val df keys).
Proof.
  split; [|split].
  - intros pre k post row Hpre Hk. induction pre as [|k0 pre IH].
    + cbn [app Setup.get_val]. rewrite (in_index_true _ _ _ Hk).
      unfold loc. rewrite Hk. reflexivity.
    + cbn [app Setup.get_val].
      rewrite (in_index_false k0 df (Hpre k0 (or_introl eq_refl))).
      apply IH. intros k' Hk'. apply Hpre. right. exact Hk'.
  - intros keys Habs. induction keys as [|k keys IH]; [reflexivity|].
    cbn [Setup.get_val].
    rewrite (in_index_false k df (Habs k (or_introl eq_refl))).
    apply IH. intros k' Hk'. apply Habs. right. exact Hk'.
  - intros keys. induction keys as [|k keys IH]; [reflexivity|].
    cbn [FinancialAnalysis.get_item Setup.get_val]. rewrite IH. reflexivity.
Qed.

Lemma get_val_same_latest (df df' : statement) (keys : list string) :
  same_latest df df' -> Setup.get_val df keys = Setup.get_val df' keys.
Proof.
  intros Hs. induction keys as [|k keys IH]; [reflexivity|].
  cbn [Setup.get_val]. specialize (Hs k). unfold in_index, loc.
  destruct (items df !! k) as [row|], (items df' !! k) as [row'|];
    try discriminate.
  - rewrite !bool_decide_eq_true_2 by eauto. cbn [bind ok].
    cbn in Hs. injection Hs as Hs.
    destruct row, row'; try discriminate; [reflexivity|].
    cbn in Hs. injection Hs as ->. reflexivity.
  - rewrite !bool_decide_eq_false_2 by (intros [x Hx]; discriminate).
    exact IH.
Qed.

(** X5.  The Z-Score is a point-in-time figure: it reads the most recent
    value of each line only, so two pairs of statements that agree on
    those values score the same, whatever the older periods hold. *)
Theorem altman_reads_latest_period (bs bs' fin fin' : statement)
    (market_cap : num) :
  same_latest bs bs' -> same_latest fin fin' ->
  Setup.calculate_altman_z_yfinance bs fin market_cap
  = Setup.calculate_altman_z_yfinance bs' fin' market_cap.
Proof.
  intros Hbs Hfin. unfold Setup.calculate_altman_z_yfinance.
  rewrite !(get_val_same_latest bs bs' _ Hbs).
  rewrite !(get_val_same_latest fin fin' _ Hfin). reflexivity.
Qed.

(** X6.  Statements without a "Total Assets" line, or with neither of
    the two total-liabilities lines, score 0. *)
Theorem altman_missing_lines (bs fin : statement) (market_cap : num) :
  items bs !! "Total Assets" = None \/
  (items bs !! "Total Liabilities Net Minority Interest" = None /\
   items bs !! "Total Liabilities" = None) ->
  Setup.calculate_altman_z_yfinance bs fin market_cap = Fin 0.
Proof.
  intros H. unfold Setup.calculate_altman_z_yfinance.
  destruct H as [Hta | [Hl1 Hl2]].
  - assert (E : Setup.get_val bs ["Total Assets"] = ok (Fin 0)).
    { cbn [Setup.get_val]. rewrite (in_index_false _ _ Hta). reflexivity. }
    rewrite E. clear E. cbn [bind ok].
    destruct (Setup.get_val bs _) as [?|tl]; [reflexivity|]. cbn [bind].
    destruct (Setup.get_val bs _) as [?|ca]; [reflexivity|]. cbn [bind].
    destruct (Setup.get_val bs _) as [?|cl]; [reflexivity|]. cbn [bind].
    destruct (Setup.get_val bs _) as [?|re]; [reflexivity|]. cbn [bind].
    destruct (Setup.get_val fin _) as [?|ebit]; [reflexivity|]. cbn [bind].
    destruct (Setup.get_val fin _) as [?|rev]; [reflexivity|]. cbn [bind].
    reflexivity.
  - destruct (Setup.get_val bs ["Total Assets"]) as [?|ta]; [reflexivity|].
    cbn [bind].
    assert (E : Setup.get_val bs ["Total Liabilities Net Minority Interest";
                                  "Total Liabilities"] = ok (Fin 0)).
    { cbn [Setup.get_val].
      rewrite (in_index_false _ _ Hl1), (in_index_false _ _ Hl2).
      reflexivity. }
    rewrite E. clear E. cbn [bind ok].
    destruct (Setup.get_val bs _) as [?|ca]; [reflexivity|]. cbn [bind].
    destruct (Setup.get_val bs _) as [?|cl]; [reflexivity|]. cbn [bind].
    destruct (Setup.get_val bs _) as [?|re]; [reflexivity|]. cbn [bind].
    destruct (Setup.get_val fin _) as [?|ebit]; [reflexivity|]. cbn [bind].
    destruct (Setup.get_val fin _) as [?|rev]; [reflexivity|]. cbn [bind].
    replace ((Fin 0 =? 0)%num) with true by reflexivity.
    rewrite orb_true_r. reflexivity.
Qed.

End LookupFacts.

(* ===================================================================== *)
(** * Trend Filter: the output table *)
(* ===================================================================== *)

Section TrendOutput.

Import Setup.

(** The comparison the sort makes between two rows. *)
Let key_ordered (a b : trow) : Prop :=
  key_le (sort_key a) (sort_key b) = true.

Lemma key_le_total (a b : num) : key_le a b = false -> key_le b a = true.
Proof.
  unfold key_le. destruct b as [y| | |], a as [x| | |]; cbn;
    try discriminate; try reflexivity.
  unfold leb. cbn. rewrite <- (Qcompare_antisym x y).
  destruct (Qcompare x y); cbn; (discriminate || reflexivity).
Qed.

Lemma insert_sorted_hd (r r0 : trow) (l : list trow) :
  key_ordered r0 r -> HdRel key_ordered r0 l ->
  HdRel key_ordered r0 (insert_sorted r l).
Proof.
  intros Hr Hl. destruct l as [|r' l]; cbn; [constructor; exact Hr|].
  destruct (key_le _ _); constructor; [exact Hr|].
  inversion Hl; assumption.
Qed.

Lemma insert_sorted_Sorted (r : trow) (l : list trow) :
  Sorted key_ordered l -> Sorted key_ordered (insert_sorted r l).
Proof.
  induction l as [|r' l IH]; intros Hs; cbn.
  - constructor; constructor.
  - destruct (key_le (sort_key r) (sort_key r')) eqn:E.
    + constructor; [exact Hs|]. constructor. exact E.
    + inversion Hs as [|? ? Hs' Hhd]; subst. constructor; [exact (IH Hs')|].
      apply insert_sorted_hd; [|exact Hhd]. apply key_le_total. exact E.
Qed.

Lemma sort_values_Sorted (l : list trow) :
  Sorted key_ordered (sort_values l).
Proof.
  induction l as [|r l IH]; cbn; [constructor|].
  apply insert_sorted_Sorted. exact IH.
Qed.

Lemma length_omap_le {A B} (f : A -> option B) (l : list A) :
  (length (omap f l) <= length l)%nat.
Proof.
  induction l as [|x l IH]; cbn; [lia|].
  destruct (f x); cbn; lia.
Qed.

(** The row that the processing of a ticker returns. *)
Lemma trend_row_inv (df_input : list trow) (data : price_frame) (n : nat)
    (t : string) (r : trow) :
  trend_row df_input data n t = ok (Some r) ->
  exists base sma dist,
    base ∈ df_input /\ Ticker base = t /\
    r = TRow t (<["Trend_Dist_%" := CNum dist]>
                  (<["SMA_200" := CNum sma]> (cols base))).
Proof.
  unfold trend_row. intros H.
  apply bind_ok_inv in H as ([h|] & _ & H); [|discriminate].
  destruct (nrows h <? 200)%nat; [discriminate|].
  apply bind_ok_inv in H as (close & _ & H).
  apply bind_ok_inv in H as (sma & _ & H).
  apply bind_ok_inv in H as (cp & _ & H).
  destruct (cp >? sma)%num; [|discriminate].
  destruct (find _ df_input) as [base|] eqn:E; [|discriminate].
  injection H as <-.
  apply find_some in E as [Hin E]. apply bool_decide_eq_true in E.
  exists base, (round2 sma), (round2 (((cp - sma) / sma) * 100)%num).
  split; [apply list_elem_of_In; exact Hin|]. split; [exact E|].
  rewrite E. reflexivity.
Qed.

Variable download : list string -> res price_frame.

Lemma key_le_ascending (x y : num) : key_le x y = true -> ascending x y.
Proof.
  unfold key_le, ascending.
  destruct x as [a| | |], y as [b| | |]; cbn; try discriminate; auto.
  intros H. apply leb_Fin. exact H.
Qed.

Lemma trend_row_dist (df_input : list trow) (data : price_frame) (n : nat)
    (t : string) (r : trow) :
  trend_row df_input data n t = ok (Some r) ->
  trend_dist r = Some (sort_key r).
Proof.
  intros H. apply trend_row_inv in H as (base & sma & dist & _ & _ & ->).
  unfold trend_dist, sort_key. cbn [cols]. rewrite lookup_insert_eq.
  reflexivity.
Qed.

Lemma Sorted_ascending_rows (l : list trow) :
  Forall (fun r => trend_dist r = Some (sort_key r)) l ->
  Sorted key_ordered l -> Sorted ascending_rows l.
Proof.
  intros Hall Hs. induction Hs as [|r l Hs IH Hhd]; [constructor|].
  apply Forall_cons in Hall as [Hr Hl]. constructor; [exact (IH Hl)|].
  destruct Hhd as [|r' l' Hrr']; constructor.
  apply Forall_cons in Hl as [Hr' _].
  exists (sort_key r), (sort_key r'). repeat split; try assumption.
  apply key_le_ascending. exact Hrr'.
Qed.

(** X7.  When the download succeeds the output is sorted by ascending
    "Trend_Dist_%": every row holds a number in that column, and the
    number of a row is not above the number of the next one. *)
Theorem trend_output_sorted (df_input : list trow) (data : price_frame) :
  download (map Ticker df_input) = ok data ->
  Sorted ascending_rows (apply_trend_alignment download df_input).
Proof.
  intros Hd. apply Sorted_ascending_rows.
  - apply Forall_forall. intros r Hr.
    apply (apply_trend_alignment_elem download df_input data r Hd) in Hr
      as (u & _ & Hrow).
    exact (trend_row_dist _ _ _ _ _ Hrow).
  - unfold apply_trend_alignment.
    destruct df_input as [|r0 df]; [constructor|].
    cbv beta iota zeta. unfold ok in Hd. rewrite Hd.
    apply sort_values_Sorted.
Qed.

(** X8.  When the download succeeds every output row is a row of the
    input with the two columns "SMA_200" and "Trend_Dist_%" set to
    numbers and every other column untouched. *)
Theorem trend_rows_enriched (df_input : list trow) (data : price_frame)
    (r : trow) :
  download (map Ticker df_input) = ok data ->
  r ∈ apply_trend_alignment download df_input ->
  exists base sma dist,
    base ∈ df_input /\ Ticker r = Ticker base /\
    cols r !! "SMA_200" = Some (CNum sma) /\
    cols r !! "Trend_Dist_%" = Some (CNum dist) /\
    forall k, k <> "SMA_200" -> k <> "Trend_Dist_%" ->
              cols r !! k = cols base !! k.
Proof.
  intros Hd Hr.
  apply (apply_trend_alignment_elem download df_input data r Hd) in Hr
    as (u & _ & Hrow).
  apply trend_row_inv in Hrow as (base & sma & dist & Hin & Ht & ->).
  exists base, sma, dist. cbn [Ticker cols].
  split; [exact Hin|]. split; [symmetry; exact Ht|].
  split; [|split].
  - rewrite lookup_insert_ne by discriminate. apply lookup_insert_eq.
  - apply lookup_insert_eq.
  - intros k H1 H2. rewrite !lookup_insert_ne by congruence. reflexivity.
Qed.

(** X9.  The filter never returns more rows than it was given, whether
    the download succeeds or not. *)
Theorem trend_output_no_longer (df_input : list trow) :
  (length (apply_trend_alignment download df_input) <= length df_input)%nat.
Proof.
  unfold apply_trend_alignment. destruct df_input as [|r0 df]; [cbn; lia|].
  cbv beta iota zeta. destruct (download _) as [e|data]; [lia|].
  rewrite sort_values_perm. unfold trend_data.
  etransitivity; [apply length_omap_le|]. rewrite length_map. lia.
Qed.

End TrendOutput.

Lemma trend_output_sorted_witness :
  Sorted ascending_rows
    (Setup.apply_trend_alignment MoreExamples.download_two
       Examples.trend_input).
Proof.
  exact (trend_output_sorted MoreExamples.download_two Examples.trend_input
           MoreExamples.prices_two eq_refl).
Defined.

(** An instance of X7: "AAA" is 19.88% above its average and "BBB"
    9.95%; the output lists "BBB" first. *)
Example trend_order_example :
  map (fun r => (Ticker r, trend_dist r))
    (Setup.apply_trend_alignment MoreExamples.download_two
       Examples.trend_input)
  = [("BBB", Some (Fin (995 # 100))); ("AAA", Some (Fin (1988 # 100)))].
Proof. vm_compute. reflexivity. Qed.

Lemma trend_rows_enriched_witness :
  Forall (fun r => exists base, base ∈ Examples.trend_input /\
                                Ticker r = Ticker base)
    (Setup.apply_trend_alignment Examples.download_prices Examples.trend_input).
Proof.
  apply Forall_forall. intros r Hr.
  destruct (trend_rows_enriched Examples.download_prices Examples.trend_input
              Examples.prices r eq_refl Hr) as (base & _ & _ & Hin & Ht & _).
  exists base. auto.
Defined.

(* ===================================================================== *)
(** * Deep Analyzer: the run as a whole *)
(* ===================================================================== *)

Section AnalyzerRun.

Import FinancialAnalysis.

Variables CACHE_EXPIRY_DAYS FORTRESS_MARGIN_THRESHOLD : Q.
Variables MIN_INTEREST_COVERAGE MIN_ROIC : Q.
Variable altman : statement -> statement -> num -> num.
Variable fetch_statements : string -> res (statement * statement).
Variable current_time : Q.
Variable survivor_df : list Filters.survivor_row.

Let step :=
  analyze_ticker CACHE_EXPIRY_DAYS FORTRESS_MARGIN_THRESHOLD
    MIN_INTEREST_COVERAGE MIN_ROIC altman fetch_statements current_time
    survivor_df.
Let skip := skip_cached CACHE_EXPIRY_DAYS current_time.
Let run :=
  get_advanced_metrics CACHE_EXPIRY_DAYS FORTRESS_MARGIN_THRESHOLD
    MIN_INTEREST_COVERAGE MIN_ROIC altman Setup.save_cache fetch_statements
    current_time survivor_df.

(** What [analyze] returns. *)
Lemma analyze_inv (ticker : string) (fin bs : statement) (fm pm : bool)
    (avg : option num) (m : metrics) (row : analysis_row) :
  analyze MIN_INTEREST_COVERAGE MIN_ROIC altman current_time survivor_df
    ticker fin bs fm pm avg = ok (m, row) ->
  base_row row ∈ survivor_df /\
  Filters.Ticker (base_row row) = ticker /\
  timestamp m = Fin current_time /\
  Z_Score row = z_score m /\ Int_Cov row = int_cov m /\
  Tier row = determine_tier_history MIN_INTEREST_COVERAGE MIN_ROIC m fm pm.
Proof.
  unfold analyze. intros H.
  apply bind_ok_inv in H as (ebit & _ & H).
  apply bind_ok_inv in H as (int_exp & _ & H).
  apply bind_ok_inv in H as (total_assets & _ & H).
  apply bind_ok_inv in H as (curr_liab & _ & H).
  destruct (find _ survivor_df) as [base|] eqn:E; [|discriminate].
  injection H as <- <-. cbn.
  apply find_some in E as [Hin E]. apply bool_decide_eq_true in E.
  repeat split; auto. apply list_elem_of_In. exact Hin.
Qed.

(** The three outcomes of one iteration: the ticker is skipped; it is
    requested and yields nothing; it is requested and yields a cache
    entry and a row. *)
Lemma step_cases (st : loop_state) (t : string) :
  (skip (cache st !! t) = true /\ step st t = st) \/
  (skip (cache st !! t) = false /\
   fetched (step st t) = fetched st ++ [t] /\
   ((cache (step st t) = cache st /\ final_data (step st t) = final_data st) \/
    exists fin bs fm pm avg m row,
      analyze MIN_INTEREST_COVERAGE MIN_ROIC altman current_time survivor_df
        t fin bs fm pm avg = ok (m, row) /\
      cache (step st t) = <[t := m]> (cache st) /\
      final_data (step st t) = final_data st ++ [row])).
Proof.
  unfold step, skip, analyze_ticker.
  destruct (skip_cached _ _ _) eqn:S; [left; auto|]. right.
  split; [reflexivity|].
  destruct (fetch_statements t) as [e|[fin bs]]; [cbn; auto|].
  destruct (empty fin || empty bs); [cbn; auto|]. cbn [avg_margin].
  destruct (margin_flags _ _ _) as [[fm pm] avg].
  destruct (analyze _ _ _ _ _ _ _ _ _ _ _) as [e|[m row]] eqn:A; [cbn; auto|].
  cbn. split; [reflexivity|]. right. exists fin, bs, fm, pm, avg, m, row. auto.
Qed.

Lemma step_cache_other (st : loop_state) (t t' : string) :
  t <> t' -> cache (step st t) !! t' = cache st !! t'.
Proof.
  intros Hne.
  destruct (step_cases st t) as [[_ ->] | (_ & _ & [[-> _] | H])];
    [reflexivity | reflexivity |].
  destruct H as (fin & bs & fm & pm & avg & m & row & _ & -> & _).
  apply lookup_insert_ne. exact Hne.
Qed.

(** An invariant of the rows collected by the loop. *)
Lemma fold_rows_invariant (P : analysis_row -> Prop) :
  (forall t fin bs fm pm avg m row,
      analyze MIN_INTEREST_COVERAGE MIN_ROIC altman current_time survivor_df
        t fin bs fm pm avg = ok (m, row) -> P row) ->
  forall l st,
    Forall P (final_data st) -> Forall P (final_data (fold_left step l st)).
Proof.
  intros HP l. induction l as [|t l IH]; intros st Hst; [exact Hst|].
  cbn [fold_left]. apply IH.
  destruct (step_cases st t) as [[_ ->] | (_ & _ & [[_ ->] | H])];
    [exact Hst | exact Hst |].
  destruct H as (fin & bs & fm & pm & avg & m & row & A & _ & ->).
  apply Forall_app. split; [exact Hst|]. constructor; [|constructor].
  exact (HP _ _ _ _ _ _ _ _ A).
Qed.

Lemma fold_rows_sublist (l : list string) (st : loop_state) :
  exists rows,
    final_data (fold_left step l st) = final_data st ++ rows /\
    sublist (map (fun r => Filters.Ticker (base_row r)) rows) l.
Proof.
  revert st. induction l as [|t l IH]; intros st.
  - exists []. cbn. rewrite app_nil_r. split; [reflexivity | constructor].
  - cbn [fold_left]. destruct (IH (step st t)) as (rows & -> & Hsub).
    destruct (step_cases st t) as [[_ ->] | (_ & _ & [[_ ->] | H])].
    + exists rows. split; [reflexivity|]. apply sublist_cons. exact Hsub.
    + exists rows. split; [reflexivity|]. apply sublist_cons. exact Hsub.
    + destruct H as (fin & bs & fm & pm & avg & m & row & A & _ & ->).
      apply analyze_inv in A as (_ & Ht & _).
      exists (row :: rows). rewrite <- app_assoc. split; [reflexivity|].
      cbn [map]. rewrite Ht. apply sublist_skip. exact Hsub.
Qed.

(** X10.  The output keeps the order of the input: the tickers of its
    rows are a sublist of the input tickers, and every row carries a row
    of the screener's table for its ticker. *)
Theorem analyzer_output_follows_input (file : Setup.cache_file) :
  sublist (map (fun r => Filters.Ticker (base_row r)) (run file).1.1)
    (map Filters.Ticker survivor_df) /\
  Forall (fun r => base_row r ∈ survivor_df) (run file).1.1.
Proof.
  unfold run, get_advanced_metrics. cbn [fst snd]. split.
  - destruct (fold_rows_sublist (map Filters.Ticker survivor_df)
                {| cache := Setup.load_cache file; final_data := [];
                   avg_margin := None; fetched := [] |})
      as (rows & E & Hsub).
    fold step. rewrite E. exact Hsub.
  - apply fold_rows_invariant; [|constructor].
    intros t fin bs fm pm avg m row A. apply analyze_inv in A. tauto.
Qed.

(** X11.  Tiers are sound: a Fortress row has a Z-score of at least
    2.99, a Strong row one of at least 1.81, and no row with an interest
    coverage below MIN_INTEREST_COVERAGE is rated better than Risky. *)
Theorem analyzer_tiers_are_sound (file : Setup.cache_file) :
  Forall (fun r =>
            (Tier r = Fortress -> (Z_Score r >=? 299 # 100)%num = true) /\
            (Tier r = Strong -> (Z_Score r >=? 181 # 100)%num = true) /\
            ((Int_Cov r <? MIN_INTEREST_COVERAGE)%num = true ->
             Tier r = Risky))
    (run file).1.1.
Proof.
  unfold run, get_advanced_metrics. cbn [fst snd].
  apply fold_rows_invariant; [|constructor].
  intros t fin bs fm pm avg m row A.
  apply analyze_inv in A as (_ & _ & _ & -> & -> & ->).
  unfold determine_tier_history.
  destruct (int_cov m <? MIN_INTEREST_COVERAGE)%num;
    [repeat split; (discriminate || reflexivity)|].
  destruct (roic m <? MIN_ROIC)%num;
    [repeat split; discriminate|].
  destruct fm, pm, (z_score m >=? 299 # 100)%num eqn:Z1,
    (z_score m >=? 181 # 100)%num eqn:Z2; cbn;
    repeat split; (discriminate || reflexivity).
Qed.


Lemma fold_cache_other (l : list string) (st : loop_state) (t' : string) :
  ~ In t' l -> cache (fold_left step l st) !! t' = cache st !! t'.
Proof.
  revert st. induction l as [|t l IH]; intros st Hnin; [reflexivity|].
  cbn [fold_left]. rewrite IH by (intros H; apply Hnin; right; exact H).
  apply step_cache_other. intros ->. apply Hnin. left. reflexivity.
Qed.

Lemma fold_cache_entries (l : list string) (st : loop_state) (t : string) :
  cache (fold_left step l st) !! t = cache st !! t \/
  (In t l /\ exists m, cache (fold_left step l st) !! t = Some m /\
                       timestamp m = Fin current_time).
Proof.
  revert st. induction l as [|t0 l IH]; intros st; [left; reflexivity|].
  cbn [fold_left]. destruct (IH (step st t0)) as [E | (Hin & m & Hm & Hts)].
  - rewrite E.
    destruct (step_cases st t0) as [[_ ->] | (_ & _ & [[-> _] | H])];
      [left; reflexivity | left; reflexivity |].
    destruct H as (fin & bs & fm & pm & avg & m & row & A & -> & _).
    destruct (decide (t0 = t)) as [->|Hne].
    + right. split; [left; reflexivity|]. exists m.
      rewrite lookup_insert_eq. split; [reflexivity|].
      apply analyze_inv in A. tauto.
    + left. apply lookup_insert_ne. exact Hne.
  - right. split; [right; exact Hin|]. exists m. auto.
Qed.

(** X12.  The run only adds to the cache: an entry of the saved cache is
    the loaded entry of that ticker, or an entry stamped with the time of
    the run for a ticker of the input; so no loaded entry is ever evicted,
    however old. *)
Theorem analyzer_cache_only_grows (file : Setup.cache_file) (t : string) :
  let saved := Setup.load_cache (run file).1.2 in
  let loaded := Setup.load_cache file in
  (saved !! t = loaded !! t \/
   (In t (map Filters.Ticker survivor_df) /\
    exists m, saved !! t = Some m /\ timestamp m = Fin current_time)) /\
  (is_Some (loaded !! t) -> is_Some (saved !! t)).
Proof.
  intros saved loaded. subst saved loaded.
  unfold run, get_advanced_metrics. cbn [fst snd Setup.save_cache
    Setup.load_cache]. fold step.
  pose proof (fold_cache_entries (map Filters.Ticker survivor_df)
                {| cache := Setup.load_cache file; final_data := [];
                   avg_margin := None; fetched := [] |} t) as H.
  cbn [cache] in H. split; [exact H|].
  intros Hsome. destruct H as [-> | (_ & m & -> & _)]; [exact Hsome | eauto].
Qed.

Lemma fold_fetched (l : list string) (st : loop_state) :
  NoDup l ->
  fetched (fold_left step l st)
  = fetched st ++ List.filter (fun t => negb (skip (cache st !! t))) l.
Proof.
  revert st. induction l as [|t l IH]; intros st Hnd.
  - cbn. rewrite app_nil_r. reflexivity.
  - apply NoDup_cons in Hnd as [Hnin Hnd]. cbn [fold_left List.filter].
    rewrite (IH _ Hnd).
    assert (Hrest :
      List.filter (fun t' => negb (skip (cache (step st t) !! t'))) l
      = List.filter (fun t' => negb (skip (cache st !! t'))) l).
    { apply filter_ext_in. intros t' Hin. rewrite step_cache_other;
        [reflexivity|]. intros ->. apply Hnin, list_elem_of_In. exact Hin. }
    rewrite Hrest.
    destruct (step_cases st t) as [[S E] | (S & F & _)].
    + rewrite E, S. reflexivity.
    + rewrite F, S. cbn [negb]. rewrite <- app_assoc. reflexivity.
Qed.

(** X13.  With distinct input tickers, the statements provider is asked
    for exactly the tickers that have no fresh entry marked as failed in
    the loaded cache, in the order of the input; a fresh entry of any
    other kind saves no request. *)
Theorem analyzer_requests (file : Setup.cache_file) :
  NoDup (map Filters.Ticker survivor_df) ->
  (run file).2
  = List.filter (fun t => negb (skip (Setup.load_cache file !! t)))
      (map Filters.Ticker survivor_df).
Proof.
  intros Hnd. unfold run, get_advanced_metrics. cbn [fst snd]. fold step.
  rewrite (fold_fetched _ _ Hnd). reflexivity.
Qed.

(** The part of the loop state that does not depend on the cache. *)
Lemma step_same_skip (st1 st2 : loop_state) (t : string) :
  final_data st1 = final_data st2 -> avg_margin st1 = avg_margin st2 ->
  fetched st1 = fetched st2 ->
  skip (cache st1 !! t) = skip (cache st2 !! t) ->
  final_data (step st1 t) = final_data (step st2 t) /\
  avg_margin (step st1 t) = avg_margin (step st2 t) /\
  fetched (step st1 t) = fetched (step st2 t).
Proof.
  intros Hd Ha Hf Hs. unfold step, analyze_ticker. fold skip.
  rewrite <- Hs. destruct (skip (cache st1 !! t)); [auto|].
  cbn [cache final_data avg_margin fetched]. rewrite <- Hd, <- Ha, <- Hf.
  destruct (fetch_statements t) as [e|[fin bs]]; [cbn; auto|].
  destruct (empty fin || empty bs); [cbn; auto|].
  destruct (margin_flags _ _ _) as [[fm pm] avg].
  destruct (analyze _ _ _ _ _ _ _ _ _ _ _) as [e|[m row]]; cbn; auto.
Qed.

Lemma fold_same_skip (l : list string) (st1 st2 : loop_state) :
  NoDup l ->
  final_data st1 = final_data st2 -> avg_margin st1 = avg_margin st2 ->
  fetched st1 = fetched st2 ->
  (forall t, In t l -> skip (cache st1 !! t) = skip (cache st2 !! t)) ->
  final_data (fold_left step l st1) = final_data (fold_left step l st2) /\
  fetched (fold_left step l st1) = fetched (fold_left step l st2).
Proof.
  revert st1 st2. induction l as [|t l IH]; intros st1 st2 Hnd Hd Ha Hf Hs.
  - cbn. auto.
  - apply NoDup_cons in Hnd as [Hnin Hnd]. cbn [fold_left].
    destruct (step_same_skip st1 st2 t Hd Ha Hf (Hs t (or_introl eq_refl)))
      as (Hd' & Ha' & Hf').
    apply IH; try assumption.
    intros t' Hin.
    assert (Hne : t <> t').
    { intros ->. apply Hnin, list_elem_of_In. exact Hin. }
    rewrite !step_cache_other by exact Hne. apply Hs. right. exact Hin.
Qed.

(** X14.  With distinct input tickers, the loaded cache bears on a run
    only through the tickers it marks as failed: two cache files that
    mark the same input tickers give the same output table and the same
    requests.  In particular the figures cached for a ticker are never
    used in place of a fetch. *)
Theorem analyzer_ignores_cached_figures (file1 file2 : Setup.cache_file) :
  NoDup (map Filters.Ticker survivor_df) ->
  (forall t, In t (map Filters.Ticker survivor_df) ->
             skip (Setup.load_cache file1 !! t)
             = skip (Setup.load_cache file2 !! t)) ->
  (run file1).1.1 = (run file2).1.1 /\ (run file1).2 = (run file2).2.
Proof.
  intros Hnd Hs. unfold run, get_advanced_metrics. cbn [fst snd]. fold step.
  apply fold_same_skip; auto.
Qed.

End AnalyzerRun.

(* ===================================================================== *)
(** * Deep Analyzer: margins and coverage *)
(* ===================================================================== *)

Section MarginFacts.

Import FinancialAnalysis.

Lemma gtb_above_zero (a : num) (thr : Q) :
  0 <= thr -> (a >? thr)%num = true -> (a >? 0)%num = true.
Proof.
  intros Hthr H. destruct a as [x| | |]; try discriminate; [|reflexivity].
  apply gtb_Fin in H. apply gtb_Fin. lra.
Qed.

(** X15.  With a fortress threshold that is not negative, a fortress
    margin is a positive margin: the flags are never (true, false). *)
Theorem fortress_margin_is_positive (FORTRESS_MARGIN_THRESHOLD : Q)
    (fin : statement) (avg avg' : option num) (fm pm : bool) :
  0 <= FORTRESS_MARGIN_THRESHOLD ->
  margin_flags FORTRESS_MARGIN_THRESHOLD fin avg = (fm, pm, avg') ->
  fm = true -> pm = true.
Proof.
  intros Hthr H Hfm. unfold margin_flags in H.
  destruct (yearly_margins fin) as [e|yearly]; [congruence|].
  destruct (0 <? length yearly)%nat; [|congruence].
  injection H as H1 H2 _. rewrite <- H2. rewrite <- H1 in Hfm.
  exact (gtb_above_zero _ _ Hthr Hfm).
Qed.

Lemma dropna_all_nan (l : list num) :
  dropna (NaN :: map (fun _ => NaN) l) = [].
Proof.
  unfold dropna. induction l as [|x l IH]; [reflexivity|].
  cbn [map]. rewrite filter_cons in IH |- *.
  destruct (decide (is_nan NaN = false)) as [H|_]; [discriminate|].
  rewrite filter_cons.
  destruct (decide (is_nan NaN = false)) as [H|_]; [discriminate|].
  exact IH.
Qed.

(** X16.  An income statement with neither an "Operating Income" nor an
    "EBIT" line has no margin: both flags are false and [avg_margin] is
    not assigned, with or without a "Total Revenue" line. *)
Theorem no_operating_income_no_margin (FORTRESS_MARGIN_THRESHOLD : Q)
    (fin : statement) (avg : option num) :
  items fin !! "Operating Income" = None ->
  items fin !! "EBIT" = None ->
  margin_flags FORTRESS_MARGIN_THRESHOLD fin avg = (false, false, avg).
Proof.
  intros Hop Hebit. unfold margin_flags, yearly_margins.
  rewrite (in_index_false _ _ Hop), (in_index_false _ _ Hebit). cbn [bind ok].
  destruct (loc fin "Total Revenue") as [e|rev]; [reflexivity|].
  cbn [bind ok series_div]. rewrite dropna_all_nan. reflexivity.
Qed.

(** X17.  The sign under which the interest expense is reported does not
    matter, and with a finite expense that is not 0 the coverage is
    EBIT over the absolute expense. *)
Theorem interest_coverage_sign (ebit : num) :
  (forall int_exp,
      interest_coverage ebit (neg int_exp) = interest_coverage ebit int_exp) /\
  (forall e x : Q,
      ebit = Fin e -> ~ x == 0 ->
      interest_coverage ebit (Fin x) = Fin (e / Qabs x)).
Proof.
  split.
  - intros int_exp. unfold interest_coverage.
    assert (E : abs (neg int_exp) = abs int_exp).
    { destruct int_exp as [[n d]| | |]; try reflexivity.
      cbn. rewrite Z.abs_opp. reflexivity. }
    rewrite E. reflexivity.
  - intros e x -> Hx. unfold interest_coverage. cbn [abs].
    assert (Hne : ~ Qabs x == 0).
    { intros H. apply Hx. revert H. apply Qabs_case; intros; lra. }
    assert (E1 : (Fin (Qabs x) =? 0)%num = false).
    { apply not_true_iff_false. rewrite eqb_Fin. exact Hne. }
    rewrite E1. unfold div.
    assert (E2 : Qeq_bool (Qabs x) 0 = false).
    { apply not_true_iff_false. rewrite Qeq_bool_iff. exact Hne. }
    rewrite E2. reflexivity.
Qed.

End MarginFacts.

Lemma fortress_margin_is_positive_witness :
  (FinancialAnalysis.margin_flags (5 # 100) Examples.fin_profitable None).1.2
  = true.
Proof.
  assert (Hthr : 0 <= 5 # 100) by discriminate.
  exact (fortress_margin_is_positive (5 # 100) Examples.fin_profitable None
           (FinancialAnalysis.margin_flags (5 # 100) Examples.fin_profitable
              None).2
           true
           (FinancialAnalysis.margin_flags (5 # 100) Examples.fin_profitable
              None).1.2
           Hthr eq_refl eq_refl).
Defined.

Lemma no_operating_income_no_margin_witness :
  FinancialAnalysis.margin_flags (5 # 100) MoreExamples.fin_revenue_only None
  = (false, false, None).
Proof.
  exact (no_operating_income_no_margin (5 # 100)
           MoreExamples.fin_revenue_only None eq_refl eq_refl).
Defined.

(* ===================================================================== *)
(** * Instances *)
(* ===================================================================== *)

Lemma altman_reads_latest_period_witness :
  Setup.calculate_altman_z_yfinance Examples.bs_spec Examples.fin_spec 2000
  = Setup.calculate_altman_z_yfinance MoreExamples.bs_two_periods
      Examples.fin_spec 2000.
Proof.
  apply altman_reads_latest_period.
  - intros k. unfold MoreExamples.bs_two_periods. cbn [items].
    destruct (decide (k = "Retained Earnings")) as [->|Hne].
    + reflexivity.
    + rewrite lookup_insert_ne by congruence. reflexivity.
  - intros k. reflexivity.
Defined.

Lemma altman_missing_lines_witness :
  Setup.calculate_altman_z_yfinance (Statement 1 ∅) Examples.fin_spec 2000
  = Fin 0.
Proof.
  apply altman_missing_lines. left. reflexivity.
Defined.

Lemma analyzer_requests_witness :
  (Examples.run Examples.statements_of 1000000 ["AAA"; "BBB"]
     MoreExamples.cached_figures).2
  = ["AAA"; "BBB"].
Proof.
  assert (Hnd : NoDup (map Filters.Ticker (map Examples.survivor ["AAA"; "BBB"]))).
  { apply (bool_decide_unpack _). vm_compute. exact I. }
  exact (analyzer_requests 7 (5 # 100) 3 (1 # 10)
           Setup.calculate_altman_z_yfinance Examples.statements_of 1000000
           (map Examples.survivor ["AAA"; "BBB"]) MoreExamples.cached_figures
           Hnd).
Defined.

Lemma analyzer_ignores_cached_figures_witness :
  (Examples.run Examples.statements_of 1000000 ["AAA"; "BBB"] None).1.1
  = (Examples.run Examples.statements_of 1000000 ["AAA"; "BBB"]
       MoreExamples.cached_figures).1.1.
Proof.
  assert (Hnd : NoDup (map Filters.Ticker (map Examples.survivor ["AAA"; "BBB"]))).
  { apply (bool_decide_unpack _). vm_compute. exact I. }
  refine (proj1 (analyzer_ignores_cached_figures 7 (5 # 100) 3 (1 # 10)
                   Setup.calculate_altman_z_yfinance Examples.statements_of
                   1000000 (map Examples.survivor ["AAA"; "BBB"]) None
                   MoreExamples.cached_figures Hnd _)).
  intros t [<- | [<- | []]]; reflexivity.
Defined.

(** An instance of X18: the directory of five listings gives the two
    stocks, with the "$" replaced. *)
Example universe_example :
  Fetch.get_combined_universe (ok MoreExamples.directory) = ["AAPL"; "BRK-"].
Proof. reflexivity. Qed.
